(** * Dual-mode VM adapter of the Hardhat network provider

    A shallow embedding of
      - [provider/vm/dual.ts]    ([DualModeAdapter], [assertEqualRunTxResults],
                                  [assertEqualAccounts]) and
      - [provider/vm/rethnet.ts] ([RethnetAdapter])
    together with the properties of the comparison and replication layer.

    Asynchronous methods are run to completion one after the other (every call
    in the source is awaited before the next one starts), so a method is a
    function from the world before the call to its completion (a returned
    value or a thrown error) and the world after it.  The world carries the
    state of the backend(s) and the lines written to the console. *)

From Stdlib Require Import ZArith NArith List String Ascii Bool Lia.
From Stdlib Require Import Strings.Byte DecimalString DecimalZ HexadecimalString.
Import ListNotations.

Local Open Scope string_scope.
Local Open Scope Z_scope.

Set Implicit Arguments.

(* ===================================================================== *)
(** ** Values crossing the adapter interface                              *)
(* ===================================================================== *)

(** A Node.js [Buffer]: a sequence of bytes. *)
Definition Buffer := list byte.

(** [Buffer.prototype.equals]. *)
Fixpoint Buffer_equals (a b : Buffer) : bool :=
  match a, b with
  | [], [] => true
  | x :: a', y :: b' => Byte.eqb x y && Buffer_equals a' b'
  | _, _ => false
  end.

(** [Buffer.alloc(n, fill)]. *)
Definition Buffer_alloc (n : nat) (fill : byte) : Buffer := repeat fill n.

(** One hexadecimal digit, lower case as Node.js prints it. *)
Definition hexDigit (n : N) : ascii :=
  match n with
  | 0%N => "0" | 1%N => "1" | 2%N => "2" | 3%N => "3"
  | 4%N => "4" | 5%N => "5" | 6%N => "6" | 7%N => "7"
  | 8%N => "8" | 9%N => "9" | 10%N => "a" | 11%N => "b"
  | 12%N => "c" | 13%N => "d" | 14%N => "e" | _ => "f"
  end%char.

(** The inverse of [hexDigit], used to show that the rendering loses nothing. *)
Definition hexValue (c : ascii) : option N :=
  (if Ascii.eqb c "0" then Some 0 else if Ascii.eqb c "1" then Some 1
   else if Ascii.eqb c "2" then Some 2 else if Ascii.eqb c "3" then Some 3
   else if Ascii.eqb c "4" then Some 4 else if Ascii.eqb c "5" then Some 5
   else if Ascii.eqb c "6" then Some 6 else if Ascii.eqb c "7" then Some 7
   else if Ascii.eqb c "8" then Some 8 else if Ascii.eqb c "9" then Some 9
   else if Ascii.eqb c "a" then Some 10 else if Ascii.eqb c "b" then Some 11
   else if Ascii.eqb c "c" then Some 12 else if Ascii.eqb c "d" then Some 13
   else if Ascii.eqb c "e" then Some 14 else if Ascii.eqb c "f" then Some 15
   else None)%N%char.

Definition hexHigh (b : byte) : ascii := hexDigit (Byte.to_N b / 16).
Definition hexLow (b : byte) : ascii := hexDigit (Byte.to_N b mod 16).

Definition unhexByte (hi lo : ascii) : option byte :=
  match hexValue hi, hexValue lo with
  | Some h, Some l => Byte.of_N (16 * h + l)
  | _, _ => None
  end.

(** [buf.toString("hex")]: two digits per byte. *)
Fixpoint Buffer_toString_hex (b : Buffer) : string :=
  match b with
  | [] => EmptyString
  | x :: rest => String (hexHigh x) (String (hexLow x) (Buffer_toString_hex rest))
  end.

(** The bytes of U+FFFD, which a UTF-8 decoder gives for an ill-formed
    sequence. *)
Definition replacementCharacter : list byte := [xef; xbf; xbd].

(** A byte that opens a UTF-8 sequence of two to four bytes: the number of
    bytes that must follow, and the bounds of the first of them. *)
Definition utf8Lead (b : N) : option (nat * N * N) :=
  (if (0xC2 <=? b) && (b <=? 0xDF) then Some (1%nat, 0x80, 0xBF)
   else if b =? 0xE0 then Some (2%nat, 0xA0, 0xBF)
   else if b =? 0xED then Some (2%nat, 0x80, 0x9F)
   else if (0xE1 <=? b) && (b <=? 0xEF) then Some (2%nat, 0x80, 0xBF)
   else if b =? 0xF0 then Some (3%nat, 0x90, 0xBF)
   else if b =? 0xF4 then Some (3%nat, 0x80, 0x8F)
   else if (0xF1 <=? b) && (b <=? 0xF3) then Some (3%nat, 0x80, 0xBF)
   else None)%N.

(** UTF-8 decoding with replacement.  [needed] bytes of the open sequence
    are still to come, the next one within [lower] and [upper]; [pending]
    holds the bytes of the sequence read so far.  A byte that cannot
    continue the open sequence ends it with U+FFFD and is read again as the
    start of the next one. *)
Fixpoint utf8Decode (b : Buffer) (needed : nat) (lower upper : N)
    (pending : list byte) : list byte :=
  match b with
  | [] =>
      match needed with
      | O => []
      | Datatypes.S _ => replacementCharacter
      end
  | x :: rest =>
      let start :=
        if (Byte.to_N x <? 0x80)%N then x :: utf8Decode rest 0 0x80 0xBF []
        else
          match utf8Lead (Byte.to_N x) with
          | Some (n, lo, hi) => utf8Decode rest n lo hi [x]
          | None => replacementCharacter ++ utf8Decode rest 0 0x80 0xBF []
          end
      in
      match needed with
      | O => start
      | Datatypes.S n =>
          if ((lower <=? Byte.to_N x) && (Byte.to_N x <=? upper))%N then
            match n with
            | O => pending ++ x :: utf8Decode rest 0 0x80 0xBF []
            | Datatypes.S _ => utf8Decode rest n 0x80 0xBF (pending ++ [x])
            end
          else replacementCharacter ++ start
      end
  end%list.

(** [buf.toString()], which the template literal [`${buf}`] calls: the
    bytes decoded as UTF-8.  A string is held as the UTF-8 bytes of its
    text, so a well-formed sequence gives its own bytes and an ill-formed
    one gives those of U+FFFD. *)
Definition Buffer_toString_utf8 (b : Buffer) : string :=
  string_of_list_byte (utf8Decode b 0 0x80 0xBF []).

(** A JavaScript [bigint]; the template literal [`${n}`] prints it in
    decimal. *)
Definition bigint := Z.

Definition bigint_toString (n : bigint) : string :=
  DecimalString.NilZero.string_of_int (Z.to_int n).

(** [n.toString(16)]. *)
Definition bigint_toString16 (n : bigint) : string :=
  HexadecimalString.NilZero.string_of_int (Z.to_hex_int n).

(** [Address] of ethereumjs-util: a wrapper around a 20-byte buffer whose
    [toString()] is the 0x-prefixed hexadecimal form. *)
Record Address := mkAddress { buf : Buffer }.

Definition Address_toString (a : Address) : string :=
  "0x" ++ Buffer_toString_hex (buf a).

(** [Account] of ethereumjs-util. *)
Record Account := mkAccount {
  nonce : bigint;
  balance : bigint;
  storageRoot : Buffer;
  codeHash : Buffer
}.

(** [EvmError]: the [exceptionError] of an execution result. *)
Record EvmError := mkEvmError {
  error : string;
  errorType : string
}.

Record ExecResult := mkExecResult {
  exceptionError : option EvmError;
  returnValue : Buffer
}.

(** The fields of [RunTxResult] that the adapters read. *)
Record RunTxResult := mkRunTxResult {
  totalGasSpent : bigint;
  gasRefund : bigint;
  createdAddress : option Address;
  execResult : ExecResult
}.

(** The header fields of a [Block] that the adapters read. *)
Record BlockHeader := mkBlockHeader {
  number : bigint;
  coinbase : Address;
  timestamp : bigint;
  baseFeePerGas : option bigint;
  gasLimit : bigint;
  difficulty : bigint;
  mixHash : Buffer
}.

Record Block := mkBlock { header : BlockHeader }.

(** A value that may be [undefined], as a template literal prints it. *)
Definition showOptional (o : option string) : string :=
  match o with
  | Some s => s
  | None => "undefined"
  end.

(** [a !== b] on two strings-or-undefined. *)
Definition optString_neq (a b : option string) : bool :=
  match a, b with
  | None, None => false
  | Some x, Some y => negb (String.eqb x y)
  | _, _ => true
  end.

(* ===================================================================== *)
(** ** Completions, the console and the world                             *)
(* ===================================================================== *)

(** A thrown [Error] with its message. *)
Inductive JsError := Error (message : string).

Inductive Completion (A : Type) :=
| Returned (a : A)
| Thrown (e : JsError).

Arguments Returned {A} a.
Arguments Thrown {A} e.

(** What the process writes: [console.trace(msg)] and [console.log(msg)]. *)
Inductive ConsoleEvent :=
| ConsoleTrace (msg : string)
| ConsoleLog (msg : string).

Record World (S : Type) := mkWorld {
  state : S;
  console : list ConsoleEvent
}.

(** A method body over a backend state [S]. *)
Definition Eff (S A : Type) := World S -> Completion A * World S.

Definition ret {S A} (a : A) : Eff S A := fun w => (Returned a, w).

Definition throw {S A} (e : JsError) : Eff S A := fun w => (Thrown e, w).

Definition bind {S A B} (m : Eff S A) (k : A -> Eff S B) : Eff S B :=
  fun w =>
    match m w with
    | (Returned a, w') => k a w'
    | (Thrown e, w') => (Thrown e, w')
    end.

(** [try { body } catch (e) { handler(e) }]. *)
Definition tryCatch {S A} (body : Eff S A) (handler : JsError -> Eff S A)
  : Eff S A :=
  fun w =>
    match body w with
    | (Returned a, w') => (Returned a, w')
    | (Thrown e, w') => handler e w'
    end.

(** The value of an expression that may throw and touches nothing. *)
Definition completed {S A} (c : Completion A) : Eff S A := fun w => (c, w).

Definition emit {S} (ev : ConsoleEvent) : Eff S unit :=
  fun w => (Returned tt, mkWorld (state w) (console w ++ [ev])).

Definition console_trace {S} (msg : string) : Eff S unit :=
  emit (ConsoleTrace msg).

Definition console_log {S} (msg : string) : Eff S unit :=
  emit (ConsoleLog msg).

Declare Scope eff_scope.
Delimit Scope eff_scope with eff.
Notation "x <- m ;; k" := (bind m (fun x => k))
  (at level 61, m at next level, right associativity) : eff_scope.
Notation "' pat <- m ;; k" := (bind m (fun x => match x with pat => k end))
  (at level 61, pat pattern, m at next level, right associativity) : eff_scope.
Notation "m ;; k" := (bind m (fun _ => k))
  (at level 61, right associativity) : eff_scope.
Local Open Scope eff_scope.

(** [if (c) { body }] with no else branch. *)
Definition when {S} (c : bool) (body : Eff S unit) : Eff S unit :=
  if c then body else ret tt.

(* ===================================================================== *)
(** ** What the modules import from outside the two files                 *)
(* ===================================================================== *)

(** Types that the adapters only pass along, and functions of the Node.js
    runtime and of modules that the two files import.  None of them is defined
    in the two files, so they are parameters of the development. *)
Class Runtime := {
  (** [TypedTransaction] of ethereumjs-tx. *)
  TypedTransaction : Type;
  (** [Trace] of [./vm-adapter]. *)
  Trace : Type;
  RpcDebugTracingConfig : Type;
  RpcDebugTraceOutput : Type;
  (** The callbacks object given to [enableTracing]. *)
  TracingCallbacks : Type;
  (** [`${buffer}`]: the bytes decoded as UTF-8 text. *)
  Buffer_toString : Buffer -> string;
  (** [JSON.stringify(trace, null, 2)]: the text, or the error it throws
      (a [TypeError] on a trace that holds a bigint or a cycle). *)
  JSON_stringify : Trace -> Completion string;
  (** [JSON.stringify(trace, replacer, 2)] with the replacer that prints a
      bigint through [toString()]: the text, or the error it throws (on a
      cycle). *)
  JSON_stringify_bigint : Trace -> Completion string;
  (** [console.log(trace)]: the text Node.js prints for an object. *)
  inspect : Trace -> string;
  (** [hardforkGte] and [HardforkName.MERGE] of [util/hardforks]. *)
  hardforkGte : string -> string -> bool;
  HardforkName_MERGE : string
}.

(* ===================================================================== *)
(** ** The result comparator ([dual.ts], lines 266-362)                   *)
(* ===================================================================== *)

Section Comparator.

Context {RT : Runtime}.
Variable S : Type.

Definition createdAddressString (r : RunTxResult) : option string :=
  option_map Address_toString (createdAddress r).

Definition exceptionErrorError (r : RunTxResult) : option string :=
  option_map error (exceptionError (execResult r)).

Definition exceptionErrorType (r : RunTxResult) : option string :=
  option_map errorType (exceptionError (execResult r)).

Definition returnValueHex (r : RunTxResult) : string :=
  Buffer_toString_hex (returnValue (execResult r)).

(** The checks that precede the one on [returnValue] (lines 270-310). *)
Definition assertEqualRunTxResults_head
    (ethereumJSResult rethnetResult : RunTxResult) : Eff S unit :=
  when (negb (totalGasSpent ethereumJSResult =? totalGasSpent rethnetResult))
    (console_trace ("Different totalGasSpent: "
       ++ bigint_toString (totalGasSpent ethereumJSResult) ++ " !== "
       ++ bigint_toString (totalGasSpent rethnetResult)) ;;
     throw (Error "Different totalGasSpent")) ;;
  when (negb (gasRefund ethereumJSResult =? gasRefund rethnetResult))
    (console_trace ("Different gasRefund: "
       ++ bigint_toString (gasRefund ethereumJSResult) ++ " !== "
       ++ bigint_toString (gasRefund rethnetResult)) ;;
     throw (Error "Different gasRefund")) ;;
  when (optString_neq (createdAddressString ethereumJSResult)
                      (createdAddressString rethnetResult))
    (console_trace ("Different createdAddress: "
       ++ showOptional (createdAddressString ethereumJSResult) ++ " !== "
       ++ showOptional (createdAddressString rethnetResult)) ;;
     throw (Error "Different createdAddress")) ;;
  when (optString_neq (exceptionErrorError ethereumJSResult)
                      (exceptionErrorError rethnetResult))
    (console_trace ("Different exceptionError.error: "
       ++ showOptional (exceptionErrorError ethereumJSResult) ++ " !== "
       ++ showOptional (exceptionErrorError rethnetResult)) ;;
     throw (Error "Different exceptionError.error")) ;;
  when (optString_neq (exceptionErrorType ethereumJSResult)
                      (exceptionErrorType rethnetResult))
    (console_trace ("Different exceptionError.errorType: "
       ++ showOptional (exceptionErrorType ethereumJSResult) ++ " !== "
       ++ showOptional (exceptionErrorType rethnetResult)) ;;
     throw (Error "Different exceptionError.errorType")).

(** The check on [returnValue] (lines 316-326), without its guard. *)
Definition assertEqualReturnValue
    (ethereumJSResult rethnetResult : RunTxResult) : Eff S unit :=
  when (negb (String.eqb (returnValueHex ethereumJSResult)
                         (returnValueHex rethnetResult)))
    (console_trace ("Different returnValue: "
       ++ returnValueHex ethereumJSResult ++ " !== "
       ++ returnValueHex rethnetResult) ;;
     throw (Error "Different returnValue")).

(** [createdAddress === undefined]. *)
Definition isUndefined {A} (o : option A) : bool :=
  match o with
  | None => true
  | Some _ => false
  end.

(** [assertEqualRunTxResults] (lines 266-328). *)
Definition assertEqualRunTxResults
    (ethereumJSResult rethnetResult : RunTxResult) : Eff S unit :=
  assertEqualRunTxResults_head ethereumJSResult rethnetResult ;;
  when (isUndefined (createdAddress ethereumJSResult))
    (assertEqualReturnValue ethereumJSResult rethnetResult).

(** The comparison as the specification words it: the return values are
    compared when no contract was created in either result. *)
Definition assertEqualRunTxResults_spec
    (ethereumJSResult rethnetResult : RunTxResult) : Eff S unit :=
  assertEqualRunTxResults_head ethereumJSResult rethnetResult ;;
  when (isUndefined (createdAddress ethereumJSResult)
        && isUndefined (createdAddress rethnetResult))
    (assertEqualReturnValue ethereumJSResult rethnetResult).

(** [assertEqualAccounts] (lines 330-362); the check on [storageRoot] is
    commented out in the source. *)
Definition assertEqualAccounts
    (ethereumJSAccount rethnetAccount : Account) : Eff S unit :=
  when (negb (balance ethereumJSAccount =? balance rethnetAccount))
    (console_trace ("Different balance: "
       ++ bigint_toString (balance ethereumJSAccount) ++ " !== "
       ++ bigint_toString (balance rethnetAccount)) ;;
     throw (Error "Different balance")) ;;
  when (negb (Buffer_equals (codeHash ethereumJSAccount)
                            (codeHash rethnetAccount)))
    (console_trace ("Different codeHash: "
       ++ Buffer_toString (codeHash ethereumJSAccount) ++ " !== "
       ++ Buffer_toString (codeHash rethnetAccount)) ;;
     throw (Error "Different codeHash")) ;;
  when (negb (nonce ethereumJSAccount =? nonce rethnetAccount))
    (console_trace ("Different nonce: "
       ++ bigint_toString (nonce ethereumJSAccount) ++ " !== "
       ++ bigint_toString (nonce rethnetAccount)) ;;
     throw (Error "Different nonce")).

End Comparator.

(* ===================================================================== *)
(** ** The adapter interface ([VMAdapter] of [./vm-adapter])              *)
(* ===================================================================== *)

(** The methods of [VMAdapter], as both files use them, over the state [S]
    of the object that implements them. *)
Record VMAdapter {RT : Runtime} (S : Type) := mkVMAdapter {
  vm_dryRun : TypedTransaction -> Block -> option bool ->
              Eff S (RunTxResult * Trace);
  vm_getStateRoot : Eff S Buffer;
  vm_getAccount : Address -> Eff S Account;
  vm_getContractStorage : Address -> Buffer -> Eff S Buffer;
  vm_getContractCode : Address -> Eff S Buffer;
  vm_putAccount : Address -> Account -> Eff S unit;
  vm_putContractCode : Address -> Buffer -> Eff S unit;
  vm_putContractStorage : Address -> Buffer -> Buffer -> Eff S unit;
  vm_restoreContext : Buffer -> Eff S unit;
  vm_traceTransaction : Buffer -> Block -> RpcDebugTracingConfig ->
                        Eff S RpcDebugTraceOutput;
  vm_enableTracing : TracingCallbacks -> Eff S unit;
  vm_disableTracing : Eff S unit;
  vm_setBlockContext : Block -> option Buffer -> Eff S unit;
  vm_startBlock : Eff S unit;
  vm_runTxInBlock : TypedTransaction -> Block -> Eff S (RunTxResult * Trace);
  vm_addBlockRewards : list (Address * bigint) -> Eff S unit;
  vm_sealBlock : Eff S unit;
  vm_revertBlock : Eff S unit
}.

(** A method call with its arguments, indexed by the type of its result. *)
Inductive Call {RT : Runtime} : Type -> Type :=
| DryRun (tx : TypedTransaction) (blockContext : Block)
         (forceBaseFeeZero : option bool) : Call (RunTxResult * Trace)
| GetStateRoot : Call Buffer
| GetAccount (address : Address) : Call Account
| GetContractStorage (address : Address) (key : Buffer) : Call Buffer
| GetContractCode (address : Address) : Call Buffer
| PutAccount (address : Address) (account : Account) : Call unit
| PutContractCode (address : Address) (value : Buffer) : Call unit
| PutContractStorage (address : Address) (key value : Buffer) : Call unit
| RestoreContext (stateRoot : Buffer) : Call unit
| TraceTransaction (hash : Buffer) (block : Block)
                   (config : RpcDebugTracingConfig) : Call RpcDebugTraceOutput
| EnableTracing (callbacks : TracingCallbacks) : Call unit
| DisableTracing : Call unit
| SetBlockContext (block : Block) (irregularStateOrUndefined : option Buffer)
    : Call unit
| StartBlock : Call unit
| RunTxInBlock (tx : TypedTransaction) (block : Block)
    : Call (RunTxResult * Trace)
| AddBlockRewards (rewards : list (Address * bigint)) : Call unit
| SealBlock : Call unit
| RevertBlock : Call unit.

(** [adapter.method(args)]. *)
Definition perform {RT : Runtime} {S A} (adapter : VMAdapter S) (c : Call A)
  : Eff S A :=
  match c in Call T return Eff S T with
  | DryRun tx blockContext forceBaseFeeZero =>
      vm_dryRun adapter tx blockContext forceBaseFeeZero
  | GetStateRoot => vm_getStateRoot adapter
  | GetAccount address => vm_getAccount adapter address
  | GetContractStorage address key => vm_getContractStorage adapter address key
  | GetContractCode address => vm_getContractCode adapter address
  | PutAccount address account => vm_putAccount adapter address account
  | PutContractCode address value => vm_putContractCode adapter address value
  | PutContractStorage address key value =>
      vm_putContractStorage adapter address key value
  | RestoreContext stateRoot => vm_restoreContext adapter stateRoot
  | TraceTransaction hash block config =>
      vm_traceTransaction adapter hash block config
  | EnableTracing callbacks => vm_enableTracing adapter callbacks
  | DisableTracing => vm_disableTracing adapter
  | SetBlockContext block irregularStateOrUndefined =>
      vm_setBlockContext adapter block irregularStateOrUndefined
  | StartBlock => vm_startBlock adapter
  | RunTxInBlock tx block => vm_runTxInBlock adapter tx block
  | AddBlockRewards rewards => vm_addBlockRewards adapter rewards
  | SealBlock => vm_sealBlock adapter
  | RevertBlock => vm_revertBlock adapter
  end.

(* ===================================================================== *)
(** ** [DualModeAdapter] ([dual.ts], lines 35-264)                        *)
(* ===================================================================== *)

(** The two backends held by a [DualModeAdapter]. *)
Inductive Backend := EthereumJS | Rethnet.

(** One call made on a backend. *)
Record Invocation {RT : Runtime} := mkInvocation {
  inv_backend : Backend;
  inv_result : Type;
  inv_call : Call inv_result
}.

(** The state behind a [DualModeAdapter]: the states of its two backends
    and the calls made on them so far, oldest first.  The two states are
    separate: [create] builds the candidate on a state manager of its own
    ([RethnetStateManager.withGenesisAccounts]), and [RethnetAdapter.create]
    uses neither the reference's state manager nor the block-hash callback
    it is given.  The console is the one thing both write to.  The list of
    calls is not in the source; it records the order in which the bodies
    below reach the backends. *)
Record DualState {RT : Runtime} (E R : Type) := mkDualState {
  ethereumJSState : E;
  rethnetState : R;
  invocations : list Invocation
}.

Module DualModeAdapter.
Section Methods.

Context {RT : Runtime}.
Variables E R : Type.

(** The private fields set by the constructor. *)
Record t := mk {
  _ethereumJSAdapter : VMAdapter E;
  _rethnetAdapter : VMAdapter R
}.

Variable this : t.

Local Abbreviation DS := (DualState E R).

(** [this._ethereumJSAdapter.method(args)]. *)
Definition ethereumJS {A} (c : Call A) : Eff DS A :=
  fun w =>
    let s := state w in
    let (r, w') := perform (_ethereumJSAdapter this) c
                     (mkWorld (ethereumJSState s) (console w)) in
    (r, mkWorld
          (mkDualState (state w') (rethnetState s)
             (invocations s ++ [mkInvocation EthereumJS c]))
          (console w')).

(** [this._rethnetAdapter.method(args)]. *)
Definition rethnet {A} (c : Call A) : Eff DS A :=
  fun w =>
    let s := state w in
    let (r, w') := perform (_rethnetAdapter this) c
                     (mkWorld (rethnetState s) (console w)) in
    (r, mkWorld
          (mkDualState (ethereumJSState s) (state w')
             (invocations s ++ [mkInvocation Rethnet c]))
          (console w')).

(** [console.log(JSON.stringify(trace, null, 2))]: the argument is
    evaluated first, so nothing is printed when it throws. *)
Definition printEthereumJSTrace (trace : Trace) : Eff DS unit :=
  text <- completed (JSON_stringify trace) ;;
  console_log text.

Definition printRethnetTrace (trace : Trace) : Eff DS unit :=
  text <- completed (JSON_stringify_bigint trace) ;;
  console_log text.

(** The [catch] block shared by [dryRun] and [runTxInBlock]. *)
Definition printTracesAndRethrow {A} (ethereumJSTrace rethnetTrace : Trace)
    (e : JsError) : Eff DS A :=
  console_log "EthereumJS trace" ;;
  printEthereumJSTrace ethereumJSTrace ;;
  console_log "" ;;
  console_log "Rethnet trace" ;;
  printRethnetTrace rethnetTrace ;;
  throw e.

Definition dryRun (tx : TypedTransaction) (blockContext : Block)
    (forceBaseFeeZero : option bool) : Eff DS (RunTxResult * Trace) :=
  '(ethereumJSResult, ethereumJSTrace) <-
      ethereumJS (DryRun tx blockContext forceBaseFeeZero) ;;
  '(rethnetResult, rethnetTrace) <-
      rethnet (DryRun tx blockContext forceBaseFeeZero) ;;
  tryCatch
    (assertEqualRunTxResults ethereumJSResult rethnetResult ;;
     ret (rethnetResult, rethnetTrace))
    (printTracesAndRethrow ethereumJSTrace rethnetTrace).

Definition getStateRoot : Eff DS Buffer :=
  ethereumJSRoot <- ethereumJS GetStateRoot ;;
  rethnetRoot <- rethnet GetStateRoot ;;
  when (negb (Buffer_equals ethereumJSRoot rethnetRoot))
    (console_trace ("Different state root: "
       ++ Buffer_toString_hex ethereumJSRoot ++ " !== "
       ++ Buffer_toString_hex rethnetRoot) ;;
     throw (Error "Different state root")) ;;
  ret rethnetRoot.

Definition getAccount (address : Address) : Eff DS Account :=
  ethereumJSAccount <- ethereumJS (GetAccount address) ;;
  rethnetAccount <- rethnet (GetAccount address) ;;
  assertEqualAccounts ethereumJSAccount rethnetAccount ;;
  ret ethereumJSAccount.

Definition getContractStorage (address : Address) (key : Buffer)
  : Eff DS Buffer :=
  ethereumJSStorageSlot <- ethereumJS (GetContractStorage address key) ;;
  rethnetStorageSlot <- rethnet (GetContractStorage address key) ;;
  when (negb (Buffer_equals ethereumJSStorageSlot rethnetStorageSlot))
    (console_trace ("Different storage slot: "
       ++ Buffer_toString ethereumJSStorageSlot ++ " !== "
       ++ Buffer_toString rethnetStorageSlot) ;;
     throw (Error "Different storage slot")) ;;
  ret rethnetStorageSlot.

Definition getContractCode (address : Address) : Eff DS Buffer :=
  ethereumJSCode <- ethereumJS (GetContractCode address) ;;
  rethnetCode <- rethnet (GetContractCode address) ;;
  when (negb (Buffer_equals ethereumJSCode rethnetCode))
    (console_trace ("Different contract code: "
       ++ Buffer_toString ethereumJSCode ++ " !== "
       ++ Buffer_toString rethnetCode) ;;
     throw (Error "Different contract code")) ;;
  ret rethnetCode.

Definition putAccount (address : Address) (account : Account)
  : Eff DS unit :=
  rethnet (PutAccount address account) ;;
  ethereumJS (PutAccount address account).

Definition putContractCode (address : Address) (value : Buffer)
  : Eff DS unit :=
  ethereumJS (PutContractCode address value).

Definition putContractStorage (address : Address) (key value : Buffer)
  : Eff DS unit :=
  rethnet (PutContractStorage address key value) ;;
  ethereumJS (PutContractStorage address key value).

Definition restoreContext (stateRoot : Buffer) : Eff DS unit :=
  ethereumJS (RestoreContext stateRoot) ;;
  rethnet (RestoreContext stateRoot).

Definition traceTransaction (hash : Buffer) (block : Block)
    (config : RpcDebugTracingConfig) : Eff DS RpcDebugTraceOutput :=
  ethereumJS (TraceTransaction hash block config).

Definition enableTracing (callbacks : TracingCallbacks) : Eff DS unit :=
  ethereumJS (EnableTracing callbacks).

Definition disableTracing : Eff DS unit :=
  ethereumJS DisableTracing.

Definition setBlockContext (block : Block)
    (irregularStateOrUndefined : option Buffer) : Eff DS unit :=
  ethereumJS (SetBlockContext block irregularStateOrUndefined).

Definition startBlock : Eff DS unit :=
  rethnet StartBlock ;;
  ethereumJS StartBlock.

Definition runTxInBlock (tx : TypedTransaction) (block : Block)
  : Eff DS (RunTxResult * Trace) :=
  '(ethereumJSResult, ethereumJSTrace) <-
      ethereumJS (RunTxInBlock tx block) ;;
  '(rethnetResult, rethnetTrace) <- rethnet (RunTxInBlock tx block) ;;
  tryCatch
    (assertEqualRunTxResults ethereumJSResult rethnetResult ;;
     ret (ethereumJSResult, ethereumJSTrace))
    (printTracesAndRethrow ethereumJSTrace rethnetTrace).

Definition addBlockRewards (rewards : list (Address * bigint))
  : Eff DS unit :=
  rethnet (AddBlockRewards rewards) ;;
  ethereumJS (AddBlockRewards rewards).

Definition sealBlock : Eff DS unit :=
  rethnet SealBlock ;;
  ethereumJS SealBlock.

Definition revertBlock : Eff DS unit :=
  rethnet RevertBlock ;;
  ethereumJS RevertBlock.

(** [DualModeAdapter implements VMAdapter]. *)
Definition asVMAdapter : VMAdapter DS :=
  {| vm_dryRun := dryRun;
     vm_getStateRoot := getStateRoot;
     vm_getAccount := getAccount;
     vm_getContractStorage := getContractStorage;
     vm_getContractCode := getContractCode;
     vm_putAccount := putAccount;
     vm_putContractCode := putContractCode;
     vm_putContractStorage := putContractStorage;
     vm_restoreContext := restoreContext;
     vm_traceTransaction := traceTransaction;
     vm_enableTracing := enableTracing;
     vm_disableTracing := disableTracing;
     vm_setBlockContext := setBlockContext;
     vm_startBlock := startBlock;
     vm_runTxInBlock := runTxInBlock;
     vm_addBlockRewards := addBlockRewards;
     vm_sealBlock := sealBlock;
     vm_revertBlock := revertBlock |}.

End Methods.
End DualModeAdapter.

(* ===================================================================== *)
(** ** [RethnetAdapter] ([rethnet.ts])                                    *)
(* ===================================================================== *)

(** The block configuration object given to [Rethnet.guaranteedDryRun]. *)
Module BlockConfig.
Record t := mk {
  number : bigint;
  coinbase : Buffer;
  timestamp : bigint;
  basefee : option bigint;
  gasLimit : bigint;
  difficulty : option bigint
}.
End BlockConfig.

(** The header object given to [BlockBuilder.new]. *)
Module HeaderData.
Record t := mk {
  parentHash : Buffer;
  ommersHash : Buffer;
  beneficiary : Buffer;
  stateRoot : Buffer;
  transactionsRoot : Buffer;
  receiptsRoot : Buffer;
  logsBloom : Buffer;
  difficulty : bigint;
  number : bigint;
  gasLimit : bigint;
  gasUsed : bigint;
  timestamp : bigint;
  extraData : Buffer;
  mixHash : Buffer;
  nonce : bigint
}.
End HeaderData.

(** [bufferToBigInt] of ethereumjs-util: the bytes read as a big-endian
    unsigned number. *)
Definition bufferToBigInt (b : Buffer) : bigint :=
  fold_left (fun acc x => acc * 256 + Z.of_N (Byte.to_N x)) b 0.

(** What [rethnet.ts] imports from [rethnet-evm], [../RethnetState] and
    [../utils/convertToRethnet], over the state [SM] that the state manager,
    the [Rethnet] instance and every block builder share (all three are built
    on [state.asInner()]). *)
Class RethnetEvm {RT : Runtime} (SM : Type) := {
  (** The transaction, execution result and block builder of [rethnet-evm]. *)
  RethnetTransaction : Type;
  ExecutionResult : Type;
  BlockBuilder : Type;
  (** [executionResult.trace]. *)
  trace : ExecutionResult -> Trace;
  (** [../utils/convertToRethnet]. *)
  ethereumjsTransactionToRethnet : TypedTransaction -> Eff SM RethnetTransaction;
  ethereumjsHeaderDataToRethnet : BlockHeader -> option bigint -> BlockConfig.t;
  rethnetResultToRunTxResult : ExecutionResult -> Eff SM RunTxResult;
  (** [RethnetStateManager]. *)
  state_getAccount : Address -> Eff SM Account;
  state_getContractStorage : Address -> Buffer -> Eff SM Buffer;
  state_getContractCode : Address -> Eff SM Buffer;
  state_putAccount : Address -> Account -> Eff SM unit;
  state_putContractCode : Address -> Buffer -> Eff SM unit;
  state_putContractStorage : Address -> Buffer -> Buffer -> Eff SM unit;
  state_getStateRoot : Eff SM Buffer;
  state_setStateRoot : Buffer -> Eff SM unit;
  state_checkpoint : Eff SM unit;
  state_revert : Eff SM unit;
  (** [Rethnet]; [guaranteedDryRun] resolves to an object whose [execResult]
      is the execution result. *)
  rethnet_guaranteedDryRun : RethnetTransaction -> BlockConfig.t ->
                             Eff SM ExecutionResult;
  rethnet_run : RethnetTransaction -> BlockConfig.t -> Eff SM ExecutionResult;
  (** [BlockBuilder.new(state.asInner(), {}, header, {})] and
      [blockBuilder.finalize(rewards)]. *)
  BlockBuilder_new : HeaderData.t -> Eff SM BlockBuilder;
  BlockBuilder_finalize : BlockBuilder -> list (Buffer * bigint) -> Eff SM unit
}.

Module RethnetAdapter.
Section Methods.

Context {RT : Runtime}.
Variable SM : Type.
Context {EVM : RethnetEvm SM}.

(** [this._selectHardfork]. *)
Variable _selectHardfork : bigint -> string.

Definition MAX_DIFFICULTY : bigint := 2 ^ 32 - 1.

(** [_getBlockEnvDifficulty] (lines 285-310). *)
Definition _getBlockEnvDifficulty (blockNumber : bigint)
    (difficulty mixHash : option bigint) : Eff SM (option bigint) :=
  let hardfork := _selectHardfork blockNumber in
  let isPostMergeHardfork := hardforkGte hardfork HardforkName_MERGE in
  if isPostMergeHardfork then ret mixHash
  else
    match difficulty with
    | Some d =>
        if d >? MAX_DIFFICULTY then
          console_trace ("Difficulty is larger than U256::max: "
                         ++ bigint_toString16 d) ;;
          ret (Some MAX_DIFFICULTY)
        else ret difficulty
    | None => ret difficulty
    end.

(** [forceBaseFeeZero === true ? 0n : blockContext.header.baseFeePerGas]. *)
Definition dryRunBasefee (blockContext : Block)
    (forceBaseFeeZero : option bool) : option bigint :=
  match forceBaseFeeZero with
  | Some true => Some 0
  | _ => baseFeePerGas (header blockContext)
  end.

Definition dryRun (tx : TypedTransaction) (blockContext : Block)
    (forceBaseFeeZero : option bool) : Eff SM (RunTxResult * Trace) :=
  rethnetTx <- ethereumjsTransactionToRethnet tx ;;
  difficulty <- _getBlockEnvDifficulty
                  (number (header blockContext))
                  (Some (difficulty (header blockContext)))
                  (Some (bufferToBigInt (mixHash (header blockContext)))) ;;
  execResult <- rethnet_guaranteedDryRun rethnetTx
    {| BlockConfig.number := number (header blockContext);
       BlockConfig.coinbase := buf (coinbase (header blockContext));
       BlockConfig.timestamp := timestamp (header blockContext);
       BlockConfig.basefee := dryRunBasefee blockContext forceBaseFeeZero;
       BlockConfig.gasLimit := gasLimit (header blockContext);
       BlockConfig.difficulty := difficulty |} ;;
  tryCatch
    (result <- rethnetResultToRunTxResult execResult ;;
     ret (result, trace execResult))
    (fun e =>
       console_log "Rethnet trace" ;;
       console_log (inspect (trace execResult)) ;;
       throw e).

Definition getAccount (address : Address) : Eff SM Account :=
  state_getAccount address.

Definition getContractStorage (address : Address) (key : Buffer)
  : Eff SM Buffer :=
  state_getContractStorage address key.

Definition getContractCode (address : Address) : Eff SM Buffer :=
  state_getContractCode address.

Definition putAccount (address : Address) (account : Account)
  : Eff SM unit :=
  state_putAccount address account.

Definition putContractCode (address : Address) (value : Buffer)
  : Eff SM unit :=
  state_putContractCode address value.

Definition putContractStorage (address : Address) (key value : Buffer)
  : Eff SM unit :=
  state_putContractStorage address key value.

Definition getStateRoot : Eff SM Buffer :=
  state_getStateRoot.

Definition setBlockContext (block : Block)
    (irregularStateOrUndefined : option Buffer) : Eff SM unit :=
  throw (Error "not implemented").

Definition restoreContext (stateRoot : Buffer) : Eff SM unit :=
  state_setStateRoot stateRoot.

Definition startBlock : Eff SM unit :=
  state_checkpoint.

Definition runTxInBlock (tx : TypedTransaction) (block : Block)
  : Eff SM (RunTxResult * Trace) :=
  rethnetTx <- ethereumjsTransactionToRethnet tx ;;
  difficulty <- _getBlockEnvDifficulty
                  (number (header block))
                  (Some (difficulty (header block)))
                  (Some (bufferToBigInt (mixHash (header block)))) ;;
  rethnetResult <- rethnet_run rethnetTx
    (ethereumjsHeaderDataToRethnet (header block) difficulty) ;;
  result <- rethnetResultToRunTxResult rethnetResult ;;
  ret (result, trace rethnetResult).

(** The header literal of [addBlockRewards] (lines 214-231). *)
Definition dummyHeader : HeaderData.t :=
  {| HeaderData.parentHash := Buffer_alloc 32 x00;
     HeaderData.ommersHash := Buffer_alloc 32 x00;
     HeaderData.beneficiary := Buffer_alloc 20 x00;
     HeaderData.stateRoot := Buffer_alloc 32 x00;
     HeaderData.transactionsRoot := Buffer_alloc 32 x00;
     HeaderData.receiptsRoot := Buffer_alloc 32 x00;
     HeaderData.logsBloom := Buffer_alloc 256 x00;
     HeaderData.difficulty := 0;
     HeaderData.number := 0;
     HeaderData.gasLimit := 0;
     HeaderData.gasUsed := 0;
     HeaderData.timestamp := 0;
     HeaderData.extraData := [];
     HeaderData.mixHash := Buffer_alloc 32 x00;
     HeaderData.nonce := 0 |}.

Definition addBlockRewards (rewards : list (Address * bigint))
  : Eff SM unit :=
  blockBuilder <- BlockBuilder_new dummyHeader ;;
  BlockBuilder_finalize blockBuilder
    (map (fun '(address, reward) => (buf address, reward)) rewards).

Definition sealBlock : Eff SM unit := ret tt.

Definition revertBlock : Eff SM unit :=
  state_revert.

Definition traceTransaction (hash : Buffer) (block : Block)
    (config : RpcDebugTracingConfig) : Eff SM RpcDebugTraceOutput :=
  throw (Error "not implemented").

Definition enableTracing (callbacks : TracingCallbacks) : Eff SM unit :=
  throw (Error "not implemented").

Definition disableTracing : Eff SM unit :=
  throw (Error "not implemented").

(** [RethnetAdapter implements VMAdapter]. *)
Definition asVMAdapter : VMAdapter SM :=
  {| vm_dryRun := dryRun;
     vm_getStateRoot := getStateRoot;
     vm_getAccount := getAccount;
     vm_getContractStorage := getContractStorage;
     vm_getContractCode := getContractCode;
     vm_putAccount := putAccount;
     vm_putContractCode := putContractCode;
     vm_putContractStorage := putContractStorage;
     vm_restoreContext := restoreContext;
     vm_traceTransaction := traceTransaction;
     vm_enableTracing := enableTracing;
     vm_disableTracing := disableTracing;
     vm_setBlockContext := setBlockContext;
     vm_startBlock := startBlock;
     vm_runTxInBlock := runTxInBlock;
     vm_addBlockRewards := addBlockRewards;
     vm_sealBlock := sealBlock;
     vm_revertBlock := revertBlock |}.

End Methods.
End RethnetAdapter.

(** An engine, for any runtime, in which every call of the state manager,
    of [Rethnet] and of the block builder throws the same error.  What a
    [RethnetAdapter] over it throws besides is the adapter's own doing. *)
Definition brokenEvm {RT : Runtime} : RethnetEvm unit :=
  {| RethnetTransaction := unit;
     ExecutionResult := Empty_set;
     BlockBuilder := unit;
     trace := fun r => match r with end;
     ethereumjsTransactionToRethnet := fun _ => throw (Error "engine down");
     ethereumjsHeaderDataToRethnet := fun h d =>
       BlockConfig.mk (number h) (buf (coinbase h)) (timestamp h)
         (baseFeePerGas h) (gasLimit h) d;
     rethnetResultToRunTxResult := fun r => match r with end;
     state_getAccount := fun _ => throw (Error "engine down");
     state_getContractStorage := fun _ _ => throw (Error "engine down");
     state_getContractCode := fun _ => throw (Error "engine down");
     state_putAccount := fun _ _ => throw (Error "engine down");
     state_putContractCode := fun _ _ => throw (Error "engine down");
     state_putContractStorage := fun _ _ _ => throw (Error "engine down");
     state_getStateRoot := throw (Error "engine down");
     state_setStateRoot := fun _ => throw (Error "engine down");
     state_checkpoint := throw (Error "engine down");
     state_revert := throw (Error "engine down");
     rethnet_guaranteedDryRun := fun _ _ => throw (Error "engine down");
     rethnet_run := fun _ _ => throw (Error "engine down");
     BlockBuilder_new := fun _ => throw (Error "engine down");
     BlockBuilder_finalize := fun _ _ => throw (Error "engine down") |}.

(* ===================================================================== *)
(** ** A small engine for the examples                                    *)
(* ===================================================================== *)

(** The properties below hold for every runtime and every engine.  To run
    the two adapters on concrete inputs, this module supplies one of each:
    traces are already printed text, a buffer is printed as the bytes it
    holds (its UTF-8 decoding when it holds valid UTF-8), and the engine keeps
    accounts, code and storage in association lists with a stack of
    checkpoints.  It executes
    no transaction: [run] and [guaranteedDryRun] hand back the result stored
    in the field [scripted]. *)
Module Example.

(** The hardfork names in their order.  In the example runtime a name
    outside this list is not at or after any hardfork. *)
Definition hardforkOrder : list string :=
  ["chainstart"; "homestead"; "dao"; "tangerineWhistle"; "spuriousDragon";
   "byzantium"; "constantinople"; "petersburg"; "istanbul"; "muirGlacier";
   "berlin"; "london"; "arrowGlacier"; "grayGlacier"; "merge"; "shanghai"].

Fixpoint indexOf (name : string) (l : list string) : nat :=
  match l with
  | [] => O
  | x :: rest => if String.eqb x name then O else Datatypes.S (indexOf name rest)
  end.

Definition runtime : Runtime :=
  {| TypedTransaction := string;
     Trace := string;
     RpcDebugTracingConfig := unit;
     RpcDebugTraceOutput := string;
     TracingCallbacks := unit;
     Buffer_toString := Buffer_toString_utf8;
     JSON_stringify := fun t => Returned t;
     JSON_stringify_bigint := fun t => Returned t;
     inspect := fun t => t;
     hardforkGte := fun a b =>
       Nat.ltb (indexOf a hardforkOrder) (List.length hardforkOrder)
       && Nat.ltb (indexOf b hardforkOrder) (List.length hardforkOrder)
       && Nat.leb (indexOf b hardforkOrder) (indexOf a hardforkOrder);
     HardforkName_MERGE := "merge" |}.

#[local] Existing Instance runtime.

Record Tables := mkTables {
  accounts : list (Buffer * Account);
  codes : list (Buffer * Buffer);
  slots : list (Buffer * Buffer * Buffer)
}.

Record Engine := mkEngine {
  tables : Tables;
  checkpoints : list Tables;
  root : Buffer;
  scripted : RunTxResult * string
}.

Fixpoint lookup {V} (k : Buffer) (l : list (Buffer * V)) : option V :=
  match l with
  | [] => None
  | (k', v) :: rest => if Buffer_equals k' k then Some v else lookup k rest
  end.

Fixpoint lookup2 (k1 k2 : Buffer) (l : list (Buffer * Buffer * Buffer))
  : option Buffer :=
  match l with
  | [] => None
  | (k1', k2', v) :: rest =>
      if Buffer_equals k1' k1 && Buffer_equals k2' k2 then Some v
      else lookup2 k1 k2 rest
  end.

Definition emptyAccount : Account := mkAccount 0 0 [] [].

Definition read {A} (f : Engine -> A) : Eff Engine A :=
  fun w => (Returned (f (state w)), w).

Definition update (f : Engine -> Engine) : Eff Engine unit :=
  fun w => (Returned tt, mkWorld (f (state w)) (console w)).

Definition setTables (t : Tables) (e : Engine) : Engine :=
  mkEngine t (checkpoints e) (root e) (scripted e).

Definition credit (t : Tables) (reward : Buffer * bigint) : Tables :=
  let '(address, amount) := reward in
  let a := match lookup address (accounts t) with
           | Some a => a
           | None => emptyAccount
           end in
  mkTables
    ((address, mkAccount (nonce a) (balance a + amount) (storageRoot a)
                 (codeHash a)) :: accounts t)
    (codes t) (slots t).

Definition evm : RethnetEvm Engine :=
  {| RethnetTransaction := string;
     ExecutionResult := RunTxResult * string;
     BlockBuilder := HeaderData.t;
     trace := snd;
     ethereumjsTransactionToRethnet := fun tx => ret tx;
     ethereumjsHeaderDataToRethnet := fun h d =>
       BlockConfig.mk (number h) (buf (coinbase h)) (timestamp h)
         (baseFeePerGas h) (gasLimit h) d;
     rethnetResultToRunTxResult := fun r => ret (fst r);
     state_getAccount := fun address =>
       read (fun e => match lookup (buf address) (accounts (tables e)) with
                      | Some a => a
                      | None => emptyAccount
                      end);
     state_getContractStorage := fun address key =>
       read (fun e => match lookup2 (buf address) key (slots (tables e)) with
                      | Some v => v
                      | None => []
                      end);
     state_getContractCode := fun address =>
       read (fun e => match lookup (buf address) (codes (tables e)) with
                      | Some c => c
                      | None => []
                      end);
     state_putAccount := fun address account =>
       update (fun e => setTables
         (mkTables ((buf address, account) :: accounts (tables e))
            (codes (tables e)) (slots (tables e))) e);
     state_putContractCode := fun address value =>
       update (fun e => setTables
         (mkTables (accounts (tables e))
            ((buf address, value) :: codes (tables e)) (slots (tables e))) e);
     state_putContractStorage := fun address key value =>
       update (fun e => setTables
         (mkTables (accounts (tables e)) (codes (tables e))
            ((buf address, key, value) :: slots (tables e))) e);
     state_getStateRoot := read root;
     state_setStateRoot := fun r =>
       update (fun e => mkEngine (tables e) (checkpoints e) r (scripted e));
     state_checkpoint :=
       update (fun e => mkEngine (tables e) (tables e :: checkpoints e)
                          (root e) (scripted e));
     state_revert := fun w =>
       match checkpoints (state w) with
       | saved :: older =>
           (Returned tt,
            mkWorld (mkEngine saved older (root (state w))
                       (scripted (state w))) (console w))
       | [] => (Thrown (Error "no checkpoint"), w)
       end;
     rethnet_guaranteedDryRun := fun _ _ => read scripted;
     rethnet_run := fun _ _ => read scripted;
     BlockBuilder_new := fun h => ret h;
     BlockBuilder_finalize := fun _ rewards =>
       update (fun e => setTables (fold_left credit rewards (tables e)) e)
  |}.

#[local] Existing Instance evm.

(** Every block is on the London hardfork. *)
Definition selectHardfork (blockNumber : bigint) : string := "london".

(** A backend: the [RethnetAdapter] over the example engine. *)
Definition backend : VMAdapter Engine :=
  RethnetAdapter.asVMAdapter selectHardfork.

(** A [DualModeAdapter] whose two backends are of that kind. *)
Definition dual : DualModeAdapter.t Engine Engine :=
  DualModeAdapter.mk backend backend.

Definition plainResult (gas : bigint) (ret : Buffer) : RunTxResult :=
  mkRunTxResult gas 0 None (mkExecResult None ret).

Definition freshEngine (r : RunTxResult * string) : Engine :=
  mkEngine (mkTables [] [] []) [] [] r.

(** A session in which nothing has been called yet; the two backends are
    set up to answer [r1] and [r2] to an execution request. *)
Definition session (r1 r2 : RunTxResult * string)
  : World (DualState Engine Engine) :=
  mkWorld (mkDualState (freshEngine r1) (freshEngine r2) []) [].

Definition idle : World (DualState Engine Engine) :=
  session (plainResult 21000 [], "ethereumjs steps")
          (plainResult 21000 [], "rethnet steps").

Definition addressAA : Address := mkAddress (Buffer_alloc 20 xaa).

Definition someBlock : Block :=
  mkBlock (mkBlockHeader 7 addressAA 1000 (Some 1) 30000000 2 [x01; x02]).

(** Two calls that return different bytes, and two contract creations
    whose return values differ as well. *)
Definition callA : RunTxResult := plainResult 21000 [x60].
Definition callB : RunTxResult := plainResult 21000 [x61].

Definition createA : RunTxResult :=
  mkRunTxResult 53000 0 (Some addressAA) (mkExecResult None [x60; x80]).
Definition createB : RunTxResult :=
  mkRunTxResult 53000 0 (Some addressAA) (mkExecResult None []).

(** A console with nothing on it, for the comparator on its own. *)
Definition quiet : World unit := mkWorld tt [].

(** A session whose backends hold different balances for one address. *)
Definition engineWithBalance (n : bigint) : Engine :=
  mkEngine (mkTables [(buf addressAA, mkAccount 0 n [] [])] [] []) [] []
    (plainResult 21000 [], "steps").

(** A block before the merge whose difficulty is 2^32. *)
Definition heavyBlock : Block :=
  mkBlock (mkBlockHeader 7 addressAA 1000 (Some 1) 30000000 4294967296
             [x01; x02]).

(** A block builder that ignores the header it is given. *)
Definition deafBuilder (h : HeaderData.t) : Eff Engine HeaderData.t :=
  ret (RethnetAdapter.dummyHeader).

Definition diverged : World (DualState Engine Engine) :=
  mkWorld (mkDualState (engineWithBalance 1) (engineWithBalance 2) []) [].

(** An engine that holds one account, and a session whose backends hold
    accounts that differ in their storage roots only. *)
Definition engineWithAccount (a : Account) : Engine :=
  mkEngine (mkTables [(buf addressAA, a)] [] []) [] []
    (plainResult 21000 [], "steps").

Definition accountRootA : Account := mkAccount 3 100 [x01] [xc5].
Definition accountRootB : Account := mkAccount 3 100 [x02] [xc5].

Definition rootsApart : World (DualState Engine Engine) :=
  mkWorld
    (mkDualState (engineWithAccount accountRootA)
       (engineWithAccount accountRootB) []) [].

(** An engine with one checkpoint taken, and a session in which only the
    candidate has one. *)
Definition engineWithCheckpoint : Engine :=
  mkEngine (mkTables [] [] []) [mkTables [] [] []] []
    (plainResult 21000 [], "steps").

Definition candidateCheckpointed : World (DualState Engine Engine) :=
  mkWorld
    (mkDualState (freshEngine (plainResult 21000 [], "steps"))
       engineWithCheckpoint []) [].

(** A backend over the engine that is down, and the two adapters that have
    it on one side. *)
Definition brokenBackend : VMAdapter unit :=
  RethnetAdapter.asVMAdapter (EVM := brokenEvm) selectHardfork.

Definition dualBrokenReference : DualModeAdapter.t unit Engine :=
  DualModeAdapter.mk brokenBackend backend.

Definition dualBrokenCandidate : DualModeAdapter.t Engine unit :=
  DualModeAdapter.mk backend brokenBackend.

Definition brokenReferenceSession : World (DualState unit Engine) :=
  mkWorld (mkDualState tt (engineWithBalance 1) []) [].

Definition brokenCandidateSession : World (DualState Engine unit) :=
  mkWorld (mkDualState (engineWithBalance 1) tt []) [].

(** The example engine with an execution or a result conversion that can be
    made to throw. *)
Definition evmWith (engineFails conversionFails : bool) : RethnetEvm Engine :=
  {| RethnetTransaction := string;
     ExecutionResult := RunTxResult * string;
     BlockBuilder := HeaderData.t;
     trace := snd;
     ethereumjsTransactionToRethnet := fun tx => ret tx;
     ethereumjsHeaderDataToRethnet :=
       @ethereumjsHeaderDataToRethnet _ _ evm;
     rethnetResultToRunTxResult := fun r =>
       if conversionFails then throw (Error "unknown exit code")
       else ret (fst r);
     state_getAccount := @state_getAccount _ _ evm;
     state_getContractStorage := @state_getContractStorage _ _ evm;
     state_getContractCode := @state_getContractCode _ _ evm;
     state_putAccount := @state_putAccount _ _ evm;
     state_putContractCode := @state_putContractCode _ _ evm;
     state_putContractStorage := @state_putContractStorage _ _ evm;
     state_getStateRoot := @state_getStateRoot _ _ evm;
     state_setStateRoot := @state_setStateRoot _ _ evm;
     state_checkpoint := @state_checkpoint _ _ evm;
     state_revert := @state_revert _ _ evm;
     rethnet_guaranteedDryRun := fun _ _ =>
       if engineFails then throw (Error "out of memory") else read scripted;
     rethnet_run := fun _ _ =>
       if engineFails then throw (Error "out of memory") else read scripted;
     BlockBuilder_new := fun h => ret h;
     BlockBuilder_finalize := @BlockBuilder_finalize _ _ evm |}.

(** A block builder that cannot be made. *)
Definition noBuilder (h : HeaderData.t) : Eff Engine HeaderData.t :=
  throw (Error "no builder").

(** A reference backend that can trace: the example backend, except that
    the three tracing calls and [setBlockContext] return. *)
Definition tracingBackend : VMAdapter Engine :=
  {| vm_dryRun := vm_dryRun backend;
     vm_getStateRoot := vm_getStateRoot backend;
     vm_getAccount := vm_getAccount backend;
     vm_getContractStorage := vm_getContractStorage backend;
     vm_getContractCode := vm_getContractCode backend;
     vm_putAccount := vm_putAccount backend;
     vm_putContractCode := vm_putContractCode backend;
     vm_putContractStorage := vm_putContractStorage backend;
     vm_restoreContext := vm_restoreContext backend;
     vm_traceTransaction := fun _ _ _ => ret "structLogs";
     vm_enableTracing := fun _ => ret tt;
     vm_disableTracing := ret tt;
     vm_setBlockContext := fun _ _ => ret tt;
     vm_startBlock := vm_startBlock backend;
     vm_runTxInBlock := vm_runTxInBlock backend;
     vm_addBlockRewards := vm_addBlockRewards backend;
     vm_sealBlock := vm_sealBlock backend;
     vm_revertBlock := vm_revertBlock backend |}.

(** The adapter with that reference and the example backend as candidate. *)
Definition dualTracing : DualModeAdapter.t Engine Engine :=
  DualModeAdapter.mk tracingBackend backend.

End Example.

(** A second runtime, in which a trace is a single bigint: the count of
    steps.  [JSON.stringify] without a replacer throws on it; with the
    replacer of [printRethnetTrace] it prints the decimal text between
    quotes.  The backends of this module execute nothing: they answer
    [dryRun] and [runTxInBlock] with a fixed result and trace and refuse
    every other call. *)
Module BigintTrace.

Definition quote : string := String (Ascii.ascii_of_nat 34) EmptyString.

Definition runtime : Runtime :=
  {| TypedTransaction := unit;
     Trace := bigint;
     RpcDebugTracingConfig := unit;
     RpcDebugTraceOutput := unit;
     TracingCallbacks := unit;
     Buffer_toString := Buffer_toString_utf8;
     JSON_stringify := fun _ =>
       Thrown (Error "Do not know how to serialize a BigInt");
     JSON_stringify_bigint := fun steps =>
       Returned (quote ++ bigint_toString steps ++ quote);
     inspect := fun steps => bigint_toString steps ++ "n";
     hardforkGte := @hardforkGte Example.runtime;
     HardforkName_MERGE := "merge" |}.

#[local] Existing Instance runtime.

Definition refuse {A} : Eff unit A := throw (Error "not implemented").

Definition answering (result : RunTxResult) (steps : bigint)
  : VMAdapter unit :=
  {| vm_dryRun := fun _ _ _ => ret (result, steps);
     vm_getStateRoot := refuse;
     vm_getAccount := fun _ => refuse;
     vm_getContractStorage := fun _ _ => refuse;
     vm_getContractCode := fun _ => refuse;
     vm_putAccount := fun _ _ => refuse;
     vm_putContractCode := fun _ _ => refuse;
     vm_putContractStorage := fun _ _ _ => refuse;
     vm_restoreContext := fun _ => refuse;
     vm_traceTransaction := fun _ _ _ => refuse;
     vm_enableTracing := fun _ => refuse;
     vm_disableTracing := refuse;
     vm_setBlockContext := fun _ _ => refuse;
     vm_startBlock := refuse;
     vm_runTxInBlock := fun _ _ => ret (result, steps);
     vm_addBlockRewards := fun _ => refuse;
     vm_sealBlock := refuse;
     vm_revertBlock := refuse |}.

Definition cheap : RunTxResult := Example.plainResult 1 [].
Definition dear : RunTxResult := Example.plainResult 2 [].

(** An adapter whose reference spends 1 gas and whose candidate spends 2,
    each in 7 steps. *)
Definition dual : DualModeAdapter.t unit unit :=
  DualModeAdapter.mk (answering cheap 7) (answering dear 7).

Definition start : World (DualState unit unit) :=
  mkWorld (mkDualState tt tt []) [].

End BigintTrace.

(* ===================================================================== *)
(** ** Vocabulary of the properties                                       *)
(* ===================================================================== *)

(** The world after one more line on the console. *)
Definition logged {S} (w : World S) (ev : ConsoleEvent) : World S :=
  mkWorld (state w) (console w ++ [ev]).

(** The two results agree on every field that [assertEqualRunTxResults]
    checks before it looks at [returnValue]. *)
Definition agreeBeforeReturnValue (a b : RunTxResult) : Prop :=
  totalGasSpent a = totalGasSpent b
  /\ gasRefund a = gasRefund b
  /\ createdAddress a = createdAddress b
  /\ option_map error (exceptionError (execResult a))
     = option_map error (exceptionError (execResult b))
  /\ option_map errorType (exceptionError (execResult a))
     = option_map errorType (exceptionError (execResult b)).

(** The three fields of an account that [assertEqualAccounts] checks. *)
Definition agreeAccounts (a b : Account) : Prop :=
  balance a = balance b /\ nonce a = nonce b /\ codeHash a = codeHash b.

Definition withStorageRoot (r : Buffer) (a : Account) : Account :=
  mkAccount (nonce a) (balance a) r (codeHash a).

Definition withReturnValue (v : Buffer) (r : RunTxResult) : RunTxResult :=
  mkRunTxResult (totalGasSpent r) (gasRefund r) (createdAddress r)
    (mkExecResult (exceptionError (execResult r)) v).

(** The world that each backend of a [DualModeAdapter] sees: its own state
    and the console of the process. *)
Definition ethereumJSWorld {RT : Runtime} {E R} (w : World (DualState E R))
  : World E :=
  mkWorld (ethereumJSState (state w)) (console w).

Definition rethnetWorld {RT : Runtime} {E R} (w : World (DualState E R))
  : World R :=
  mkWorld (rethnetState (state w)) (console w).

(** The world of the adapter after the call [c] on one backend took that
    backend from its world in [w] to [w']. *)
Definition afterEthereumJS {RT : Runtime} {E R A} (c : Call A)
    (w : World (DualState E R)) (w' : World E) : World (DualState E R) :=
  mkWorld
    (mkDualState (state w') (rethnetState (state w))
       (invocations (state w) ++ [mkInvocation EthereumJS c]))
    (console w').

Definition afterRethnet {RT : Runtime} {E R A} (c : Call A)
    (w : World (DualState E R)) (w' : World R) : World (DualState E R) :=
  mkWorld
    (mkDualState (ethereumJSState (state w)) (state w')
       (invocations (state w) ++ [mkInvocation Rethnet c]))
    (console w').

(** The state-mutating operations of the adapter interface. *)
Inductive WriteOp :=
| WPutAccount (address : Address) (account : Account)
| WPutContractCode (address : Address) (value : Buffer)
| WPutContractStorage (address : Address) (key value : Buffer)
| WStartBlock
| WAddBlockRewards (rewards : list (Address * bigint))
| WSealBlock
| WRevertBlock.

Definition writeCall {RT : Runtime} (op : WriteOp) : Call unit :=
  match op with
  | WPutAccount address account => PutAccount address account
  | WPutContractCode address value => PutContractCode address value
  | WPutContractStorage address key value =>
      PutContractStorage address key value
  | WStartBlock => StartBlock
  | WAddBlockRewards rewards => AddBlockRewards rewards
  | WSealBlock => SealBlock
  | WRevertBlock => RevertBlock
  end.

Definition isPutContractCode (op : WriteOp) : bool :=
  match op with
  | WPutContractCode _ _ => true
  | _ => false
  end.

(** The first failure of two calls made one after the other. *)
Definition firstFailure {A} (first second : Completion A) : Completion A :=
  match first with
  | Thrown e => Thrown e
  | Returned _ => second
  end.

(** The same world with another record of past calls. *)
Definition withInvocations {RT : Runtime} {E R} (l : list Invocation)
    (w : World (DualState E R)) : World (DualState E R) :=
  mkWorld
    (mkDualState (ethereumJSState (state w)) (rethnetState (state w)) l)
    (console w).

(** A report of two backends apart: the field, and the two values as the
    adapter prints them. *)
Record Divergence := mkDivergence {
  dv_field : string;
  dv_reference : string;
  dv_candidate : string
}.

(** The error thrown for a divergence, and the line traced before it. *)
Definition divergenceError (d : Divergence) : JsError :=
  Error ("Different " ++ dv_field d).

Definition divergenceLine (d : Divergence) : ConsoleEvent :=
  ConsoleTrace ("Different " ++ dv_field d ++ ": " ++ dv_reference d
                ++ " !== " ++ dv_candidate d).

Definition optAddress_eqb (a b : option Address) : bool :=
  match a, b with
  | None, None => true
  | Some x, Some y => Buffer_equals (buf x) (buf y)
  | _, _ => false
  end.

Definition optString_eqb (a b : option string) : bool :=
  match a, b with
  | None, None => true
  | Some x, Some y => String.eqb x y
  | _, _ => false
  end.

(** The first field, in the order of the checks, on which two transaction
    results are apart, decided on the values themselves. *)
Definition runTxDivergence (a b : RunTxResult) : option Divergence :=
  if negb (totalGasSpent a =? totalGasSpent b) then
    Some (mkDivergence "totalGasSpent" (bigint_toString (totalGasSpent a))
            (bigint_toString (totalGasSpent b)))
  else if negb (gasRefund a =? gasRefund b) then
    Some (mkDivergence "gasRefund" (bigint_toString (gasRefund a))
            (bigint_toString (gasRefund b)))
  else if negb (optAddress_eqb (createdAddress a) (createdAddress b)) then
    Some (mkDivergence "createdAddress"
            (showOptional (option_map Address_toString (createdAddress a)))
            (showOptional (option_map Address_toString (createdAddress b))))
  else if negb (optString_eqb
                  (option_map error (exceptionError (execResult a)))
                  (option_map error (exceptionError (execResult b)))) then
    Some (mkDivergence "exceptionError.error"
            (showOptional (option_map error (exceptionError (execResult a))))
            (showOptional (option_map error (exceptionError (execResult b)))))
  else if negb (optString_eqb
                  (option_map errorType (exceptionError (execResult a)))
                  (option_map errorType (exceptionError (execResult b)))) then
    Some (mkDivergence "exceptionError.errorType"
            (showOptional
               (option_map errorType (exceptionError (execResult a))))
            (showOptional
               (option_map errorType (exceptionError (execResult b)))))
  else
    match createdAddress a with
    | Some _ => None
    | None =>
        if Buffer_equals (returnValue (execResult a))
                         (returnValue (execResult b))
        then None
        else Some (mkDivergence "returnValue"
                     (Buffer_toString_hex (returnValue (execResult a)))
                     (Buffer_toString_hex (returnValue (execResult b))))
    end.

(** The first of balance, code hash and nonce on which two accounts are
    apart. *)
Definition accountDivergence {RT : Runtime} (x y : Account)
  : option Divergence :=
  if negb (balance x =? balance y) then
    Some (mkDivergence "balance" (bigint_toString (balance x))
            (bigint_toString (balance y)))
  else if negb (Buffer_equals (codeHash x) (codeHash y)) then
    Some (mkDivergence "codeHash" (Buffer_toString (codeHash x))
            (Buffer_toString (codeHash y)))
  else if negb (nonce x =? nonce y) then
    Some (mkDivergence "nonce" (bigint_toString (nonce x))
            (bigint_toString (nonce y)))
  else None.

Definition bufferDivergence (name : string) (show : Buffer -> string)
    (x y : Buffer) : option Divergence :=
  if Buffer_equals x y then None
  else Some (mkDivergence name (show x) (show y)).

(** What the adapter compares after the call [c] on both backends; [None]
    when the two answers agree or when [c] is not a compared operation. *)
Definition divergenceOf {RT : Runtime} {A} (c : Call A)
  : A -> A -> option Divergence :=
  match c in Call T return T -> T -> option Divergence with
  | DryRun _ _ _ => fun x y => runTxDivergence (fst x) (fst y)
  | RunTxInBlock _ _ => fun x y => runTxDivergence (fst x) (fst y)
  | GetStateRoot => bufferDivergence "state root" Buffer_toString_hex
  | GetAccount _ => accountDivergence
  | GetContractStorage _ _ => bufferDivergence "storage slot" Buffer_toString
  | GetContractCode _ => bufferDivergence "contract code" Buffer_toString
  | _ => fun _ _ => None
  end.

(** What the [catch] block of [dryRun] and [runTxInBlock] comes to, given
    the error it caught: the lines it prints and the error that leaves it.
    It prints the reference trace without a bigint replacer, so
    [JSON.stringify] can throw there; its error then replaces the caught one
    and the candidate's trace is not printed. *)
Definition traceDump {RT : Runtime} (ethereumJSTrace rethnetTrace : Trace)
    (caught : JsError) : JsError * list ConsoleEvent :=
  match JSON_stringify ethereumJSTrace with
  | Thrown e => (e, [ConsoleLog "EthereumJS trace"])
  | Returned ethereumJSText =>
      match JSON_stringify_bigint rethnetTrace with
      | Thrown e =>
          (e, [ConsoleLog "EthereumJS trace"; ConsoleLog ethereumJSText;
               ConsoleLog ""; ConsoleLog "Rethnet trace"])
      | Returned rethnetText =>
          (caught,
           [ConsoleLog "EthereumJS trace"; ConsoleLog ethereumJSText;
            ConsoleLog ""; ConsoleLog "Rethnet trace";
            ConsoleLog rethnetText])
      end
  end.

(** What follows the divergence line: the dump of both traces for the two
    operations that execute a transaction; nothing for the four reads, which
    have no trace and throw the divergence error as it is. *)
Definition afterDivergence {RT : Runtime} {A} (c : Call A) (d : Divergence)
  : A -> A -> JsError * list ConsoleEvent :=
  match c in Call T return T -> T -> JsError * list ConsoleEvent with
  | DryRun _ _ _ => fun x y => traceDump (snd x) (snd y) (divergenceError d)
  | RunTxInBlock _ _ =>
      fun x y => traceDump (snd x) (snd y) (divergenceError d)
  | _ => fun _ _ => (divergenceError d, [])
  end.

(** Two answers to the call [c] agree on everything the adapter compares:
    transaction results on the five fields checked first and, when the
    reference result has no created address, on the return value; accounts
    on balance, nonce and code hash; buffers on their bytes.  The traces, an
    account's storage root and the return value of a contract creation are
    not compared. *)
Definition sameAnswer {RT : Runtime} {A} (c : Call A) : A -> A -> Prop :=
  match c in Call T return T -> T -> Prop with
  | DryRun _ _ _ | RunTxInBlock _ _ =>
      fun x y =>
        agreeBeforeReturnValue (fst x) (fst y)
        /\ (createdAddress (fst x) = None
            -> returnValue (execResult (fst x))
               = returnValue (execResult (fst y)))
  | GetAccount _ => agreeAccounts
  | GetStateRoot | GetContractStorage _ _ | GetContractCode _ =>
      fun x y => x = y
  | _ => fun _ _ => True
  end.

(** The world of the adapter once both backends have answered [c], the
    reference first. *)
Definition afterBoth {RT : Runtime} {E R A} (c : Call A)
    (w : World (DualState E R)) (w1 : World E) (w2 : World R)
  : World (DualState E R) :=
  mkWorld
    (mkDualState (state w1) (state w2)
       (invocations (state w)
        ++ [mkInvocation EthereumJS c; mkInvocation Rethnet c]))
    (console w2).

(** The hardfork selected for a block number is the merge or a later one. *)
Definition isPostMerge {RT : Runtime} (selectHardfork : bigint -> string)
    (blockNumber : bigint) : bool :=
  hardforkGte (selectHardfork blockNumber) HardforkName_MERGE.

(** The randomness of the block environment as the specification describes
    it: the mix hash from the merge on, the difficulty capped at 2^32 - 1
    before. *)
Definition blockEnvRandomness {RT : Runtime}
    (selectHardfork : bigint -> string) (h : BlockHeader) : bigint :=
  if isPostMerge selectHardfork (number h)
  then bufferToBigInt (mixHash h)
  else Z.min (difficulty h) 4294967295.

(** The warning that goes with a capped difficulty. *)
Definition clampWarning {RT : Runtime}
    (selectHardfork : bigint -> string) (h : BlockHeader)
  : list ConsoleEvent :=
  if negb (isPostMerge selectHardfork (number h))
     && (4294967295 <? difficulty h)
  then [ConsoleTrace ("Difficulty is larger than U256::max: "
                      ++ bigint_toString16 (difficulty h))]
  else [].

(** The same engine with another [BlockBuilder.new]. *)
Definition withBlockBuilder {RT : Runtime} {SM} (EVM : RethnetEvm SM)
    (new : HeaderData.t -> Eff SM (@BlockBuilder RT SM EVM))
  : RethnetEvm SM :=
  {| RethnetTransaction := @RethnetTransaction RT SM EVM;
     ExecutionResult := @ExecutionResult RT SM EVM;
     BlockBuilder := @BlockBuilder RT SM EVM;
     trace := @trace RT SM EVM;
     ethereumjsTransactionToRethnet := @ethereumjsTransactionToRethnet RT SM EVM;
     ethereumjsHeaderDataToRethnet := @ethereumjsHeaderDataToRethnet RT SM EVM;
     rethnetResultToRunTxResult := @rethnetResultToRunTxResult RT SM EVM;
     state_getAccount := @state_getAccount RT SM EVM;
     state_getContractStorage := @state_getContractStorage RT SM EVM;
     state_getContractCode := @state_getContractCode RT SM EVM;
     state_putAccount := @state_putAccount RT SM EVM;
     state_putContractCode := @state_putContractCode RT SM EVM;
     state_putContractStorage := @state_putContractStorage RT SM EVM;
     state_getStateRoot := @state_getStateRoot RT SM EVM;
     state_setStateRoot := @state_setStateRoot RT SM EVM;
     state_checkpoint := @state_checkpoint RT SM EVM;
     state_revert := @state_revert RT SM EVM;
     rethnet_guaranteedDryRun := @rethnet_guaranteedDryRun RT SM EVM;
     rethnet_run := @rethnet_run RT SM EVM;
     BlockBuilder_new := new;
     BlockBuilder_finalize := @BlockBuilder_finalize RT SM EVM |}.

(** The candidate backend does not support the call [c]: a
    [RethnetAdapter] answers it with "not implemented" whatever its engine,
    its hardfork selector and its state. *)
Definition notSupportedByCandidate {RT : Runtime} {A} (c : Call A) : Prop :=
  forall (SM : Type) (EVM : RethnetEvm SM) (selectHardfork : bigint -> string)
         (w : World SM),
    perform (RethnetAdapter.asVMAdapter selectHardfork) c w
    = (Thrown (Error "not implemented"), w).

(** The calls that [RethnetAdapter] answers with "not implemented". *)
Definition unsupportedByCandidate {RT : Runtime} {A} (c : Call A) : bool :=
  match c with
  | TraceTransaction _ _ _ | EnableTracing _ | DisableTracing
  | SetBlockContext _ _ => true
  | _ => false
  end.

(** The operations whose answers the adapter compares. *)
Definition compared {RT : Runtime} {A} (c : Call A) : bool :=
  match c with
  | DryRun _ _ _ | RunTxInBlock _ _ | GetStateRoot | GetAccount _
  | GetContractStorage _ _ | GetContractCode _ => true
  | _ => false
  end.

(** Which of two agreeing answers the adapter returns: the candidate's for
    [dryRun], [getStateRoot], [getContractStorage] and [getContractCode], the
    reference's for [runTxInBlock] and [getAccount]. *)
Definition chosen {RT : Runtime} {A} (c : Call A) (ofReference ofCandidate : A)
  : A :=
  match c with
  | DryRun _ _ _ | GetStateRoot | GetContractStorage _ _
  | GetContractCode _ => ofCandidate
  | _ => ofReference
  end.

(** The operations on which the adapter calls the candidate before the
    reference. *)
Definition candidateFirst {RT : Runtime} {A} (c : Call A) : bool :=
  match c with
  | PutAccount _ _ | PutContractStorage _ _ _ | StartBlock
  | AddBlockRewards _ | SealBlock | RevertBlock => true
  | _ => false
  end.

(** The operations that reach both backends, the reference first. *)
Definition referenceThenCandidate {RT : Runtime} {A} (c : Call A) : bool :=
  match c with
  | RestoreContext _ => true
  | _ => compared c
  end.

(** The three reads that answer with a buffer. *)
Inductive BufferRead :=
| RStateRoot
| RContractStorage (address : Address) (key : Buffer)
| RContractCode (address : Address).

Definition readCall {RT : Runtime} (r : BufferRead) : Call Buffer :=
  match r with
  | RStateRoot => GetStateRoot
  | RContractStorage address key => GetContractStorage address key
  | RContractCode address => GetContractCode address
  end.

(** Two transaction results pass [assertEqualRunTxResults]. *)
Definition sameRunTxResult (a b : RunTxResult) : Prop :=
  fst (assertEqualRunTxResults a b (mkWorld tt [])) = Returned tt.

(** The block configuration that [RethnetAdapter.dryRun] hands to the
    engine. *)
Definition dryRunConfig {RT : Runtime} (selectHardfork : bigint -> string)
    (blockContext : Block) (forceBaseFeeZero : option bool) : BlockConfig.t :=
  {| BlockConfig.number := number (header blockContext);
     BlockConfig.coinbase := buf (coinbase (header blockContext));
     BlockConfig.timestamp := timestamp (header blockContext);
     BlockConfig.basefee :=
       RethnetAdapter.dryRunBasefee blockContext forceBaseFeeZero;
     BlockConfig.gasLimit := gasLimit (header blockContext);
     BlockConfig.difficulty :=
       Some (blockEnvRandomness selectHardfork (header blockContext)) |}.

(** The world once the difficulty of a block has been looked at: the
    warning, if any, is on the console. *)
Definition warned {RT : Runtime} {S} (selectHardfork : bigint -> string)
    (block : Block) (w : World S) : World S :=
  mkWorld (state w) (console w ++ clampWarning selectHardfork (header block)).

(** A caller that makes a sequence of writes on an adapter, each awaited
    before the next, and stops at the first that throws. *)
Fixpoint performWrites {RT : Runtime} {S} (adapter : VMAdapter S)
    (ops : list WriteOp) : Eff S unit :=
  match ops with
  | [] => ret tt
  | op :: rest =>
      bind (perform adapter (writeCall op))
        (fun _ => performWrites adapter rest)
  end.

(** The write that a call is, if it is one. *)
Definition asWrite {RT : Runtime} {A} (c : Call A) : option WriteOp :=
  match c with
  | PutAccount address account => Some (WPutAccount address account)
  | PutContractCode address value => Some (WPutContractCode address value)
  | PutContractStorage address key value =>
      Some (WPutContractStorage address key value)
  | StartBlock => Some WStartBlock
  | AddBlockRewards rewards => Some (WAddBlockRewards rewards)
  | SealBlock => Some WSealBlock
  | RevertBlock => Some WRevertBlock
  | _ => None
  end.

Definition Backend_eqb (a b : Backend) : bool :=
  match a, b with
  | EthereumJS, EthereumJS | Rethnet, Rethnet => true
  | _, _ => false
  end.

(** The writes that one backend received, in order, among the calls of a
    record. *)
Fixpoint writesOn {RT : Runtime} (b : Backend) (l : list Invocation)
  : list WriteOp :=
  match l with
  | [] => []
  | i :: rest =>
      match (if Backend_eqb (inv_backend i) b then asWrite (inv_call i)
             else None) with
      | Some op => op :: writesOn b rest
      | None => writesOn b rest
      end
  end.

(* ===================================================================== *)
(** ** Buffers and their renderings                                       *)
(* ===================================================================== *)

Lemma Buffer_equals_spec (a b : Buffer) :
  reflect (a = b) (Buffer_equals a b).
Proof.
  revert b; induction a as [|x a IH]; intros [|y b]; simpl;
    try (constructor; congruence).
  destruct (Byte.eqb x y) eqn:Hxy; simpl.
  - apply Byte.byte_dec_bl in Hxy; subst y.
    destruct (IH b); constructor; congruence.
  - constructor; intros [= -> _].
    rewrite (Byte.byte_dec_lb eq_refl) in Hxy; discriminate.
Qed.

Lemma Buffer_equals_true (a b : Buffer) : Buffer_equals a b = true <-> a = b.
Proof. destruct (Buffer_equals_spec a b); split; congruence. Qed.

Lemma Buffer_equals_refl (a : Buffer) : Buffer_equals a a = true.
Proof. now apply Buffer_equals_true. Qed.

Lemma unhexByte_hex (x : byte) : unhexByte (hexHigh x) (hexLow x) = Some x.
Proof. destruct x; reflexivity. Qed.

Lemma hex_digits_inj (x y : byte) :
  hexHigh x = hexHigh y -> hexLow x = hexLow y -> x = y.
Proof.
  intros Hh Hl.
  pose proof (unhexByte_hex x) as Hx.
  rewrite Hh, Hl, unhexByte_hex in Hx.
  congruence.
Qed.

Lemma Buffer_toString_hex_inj (a b : Buffer) :
  Buffer_toString_hex a = Buffer_toString_hex b -> a = b.
Proof.
  revert b; induction a as [|x a IH]; intros [|y b]; simpl;
    try congruence.
  intros [= Hh Hl Hrest].
  f_equal; [now apply hex_digits_inj | now apply IH].
Qed.

Lemma Buffer_toString_hex_eqb (a b : Buffer) :
  String.eqb (Buffer_toString_hex a) (Buffer_toString_hex b)
  = Buffer_equals a b.
Proof.
  destruct (Buffer_equals_spec a b) as [->|Hne].
  - apply String.eqb_refl.
  - apply String.eqb_neq; intros H; now apply Hne, Buffer_toString_hex_inj.
Qed.

Lemma Address_toString_inj (a b : Address) :
  Address_toString a = Address_toString b -> a = b.
Proof.
  destruct a as [x], b as [y]; unfold Address_toString; simpl.
  intros [= H]. f_equal. now apply Buffer_toString_hex_inj.
Qed.

Lemma bigint_toString_inj (n m : bigint) :
  bigint_toString n = bigint_toString m -> n = m.
Proof.
  unfold bigint_toString; intros H.
  apply DecimalZ.to_int_inj.
  assert (Hn : forall z, DecimalString.NilZero.int_of_string
                 (DecimalString.NilZero.string_of_int (Z.to_int z))
               = Some (Z.to_int z)).
  { intros z. apply DecimalString.NilZero.isi.
    - destruct z; simpl; try discriminate.
      intros [= Hz]. now apply (DecimalPos.Unsigned.to_uint_nonnil p).
    - destruct z; simpl; try discriminate.
      intros [= Hz]. now apply (DecimalPos.Unsigned.to_uint_nonnil p). }
  pose proof (Hn n) as H1. rewrite H, Hn in H1. congruence.
Qed.

Lemma optString_neq_false (a b : option string) :
  optString_neq a b = false <-> a = b.
Proof.
  destruct a as [x|], b as [y|]; simpl; split; try congruence.
  - rewrite negb_false_iff. intros H%String.eqb_eq. congruence.
  - intros [= ->]. now rewrite String.eqb_refl.
Qed.

Lemma option_map_inj {A B} (f : A -> B) (a b : option A) :
  (forall x y, f x = f y -> x = y) ->
  option_map f a = option_map f b -> a = b.
Proof.
  intros Hf; destruct a, b; simpl; try congruence.
  intros [= H]. f_equal. now apply Hf.
Qed.

(* ===================================================================== *)
(** ** Running method bodies                                              *)
(* ===================================================================== *)

Lemma bind_returned {S A B} (m : Eff S A) (k : A -> Eff S B) w a w' :
  m w = (Returned a, w') -> bind m k w = k a w'.
Proof. unfold bind; now intros ->. Qed.

Lemma bind_thrown {S A B} (m : Eff S A) (k : A -> Eff S B) w e w' :
  m w = (Thrown e, w') -> bind m k w = (Thrown e, w').
Proof. unfold bind; now intros ->. Qed.

Lemma bind_unit_ret {S} (m : Eff S unit) w : bind m (fun _ => ret tt) w = m w.
Proof. unfold bind, ret; destruct (m w) as [[[]|e] w']; reflexivity. Qed.

Lemma emit_logged {S} (ev : ConsoleEvent) (w : World S) :
  emit ev w = (Returned tt, logged w ev).
Proof. reflexivity. Qed.

(** A failed check: one [console.trace] line, then the error. *)
Lemma report_throw {S} (msg : string) (e : JsError) (w : World S) :
  bind (console_trace msg) (fun _ => throw (A := unit) e) w
  = (Thrown e, logged w (ConsoleTrace msg)).
Proof. reflexivity. Qed.

(** Run the first call of a sequence, given its completion. *)
Ltac bind_step H :=
  etransitivity; [apply (bind_returned _ _ _ H)|].

Ltac eff_unfold :=
  unfold bind, when, tryCatch, throw, ret, completed, console_trace,
         console_log, emit, logged in *; simpl in *.

(* ===================================================================== *)
(** ** Properties of the result comparator                                *)
(* ===================================================================== *)

Section ComparatorFacts.

Context {RT : Runtime}.
Variable S : Type.
Implicit Types (a b : RunTxResult) (w : World S).

Lemma createdAddressString_eq a b :
  createdAddressString a = createdAddressString b
  <-> createdAddress a = createdAddress b.
Proof.
  unfold createdAddressString; split; [|congruence].
  apply option_map_inj, Address_toString_inj.
Qed.

(** The checks before [returnValue] pass exactly on results that agree on
    the five fields, and then they leave the world as it was. *)
Lemma head_returns a b w :
  agreeBeforeReturnValue a b ->
  assertEqualRunTxResults_head a b w = (Returned tt, w).
Proof.
  intros (Hg & Hr & Hc & He & Ht).
  unfold assertEqualRunTxResults_head.
  rewrite Hg, Hr, !Z.eqb_refl.
  apply createdAddressString_eq in Hc.
  unfold exceptionErrorError, exceptionErrorType.
  rewrite (proj2 (optString_neq_false _ _) Hc),
          (proj2 (optString_neq_false _ _) He),
          (proj2 (optString_neq_false _ _) Ht).
  reflexivity.
Qed.

Lemma head_returned_agree a b w :
  fst (assertEqualRunTxResults_head a b w) = Returned tt ->
  agreeBeforeReturnValue a b.
Proof.
  unfold assertEqualRunTxResults_head, agreeBeforeReturnValue,
         exceptionErrorError, exceptionErrorType.
  destruct (totalGasSpent a =? totalGasSpent b) eqn:Hg;
    [|eff_unfold; discriminate].
  destruct (gasRefund a =? gasRefund b) eqn:Hr;
    [|eff_unfold; discriminate].
  destruct (optString_neq (createdAddressString a) (createdAddressString b))
    eqn:Hc; [eff_unfold; discriminate|].
  destruct (optString_neq (option_map error (exceptionError (execResult a)))
              (option_map error (exceptionError (execResult b))))
    eqn:He; [eff_unfold; discriminate|].
  destruct (optString_neq
              (option_map errorType (exceptionError (execResult a)))
              (option_map errorType (exceptionError (execResult b))))
    eqn:Ht; [eff_unfold; discriminate|].
  intros _.
  apply Z.eqb_eq in Hg, Hr.
  apply optString_neq_false in Hc, He, Ht.
  apply createdAddressString_eq in Hc.
  auto.
Qed.

Lemma head_returned_world a b w :
  fst (assertEqualRunTxResults_head a b w) = Returned tt ->
  assertEqualRunTxResults_head a b w = (Returned tt, w).
Proof. intros H; now apply head_returns, (head_returned_agree _ _ w). Qed.

End ComparatorFacts.

Section ComparatorClaims.

Context {RT : Runtime}.
Variable S : Type.
Implicit Types (a b : RunTxResult) (w : World S).

(** The guard of the source and the guard of the specification select the
    same results, whatever the earlier checks say. *)
Lemma assertEqualRunTxResults_refines_spec a b w :
  assertEqualRunTxResults a b w = assertEqualRunTxResults_spec a b w.
Proof.
  unfold assertEqualRunTxResults, assertEqualRunTxResults_spec.
  destruct (assertEqualRunTxResults_head a b w) as [[[]|e] w'] eqn:Hhead.
  - pose proof (head_returned_agree a b w) as Hagree.
    rewrite Hhead in Hagree. destruct (Hagree eq_refl) as (_ & _ & Hc & _).
    rewrite !(bind_returned _ _ _ Hhead), <- Hc.
    now destruct (createdAddress a).
  - now rewrite !(bind_thrown _ _ _ Hhead).
Qed.

(** When a contract was created in either result, the verdict is that of
    the earlier checks alone. *)
Lemma assertEqualRunTxResults_created a b w :
  createdAddress a <> None \/ createdAddress b <> None ->
  assertEqualRunTxResults a b w = assertEqualRunTxResults_head a b w.
Proof.
  intros Hcreated.
  rewrite assertEqualRunTxResults_refines_spec.
  unfold assertEqualRunTxResults_spec.
  replace (isUndefined (createdAddress a) && isUndefined (createdAddress b))
    with false.
  - apply bind_unit_ret.
  - destruct (createdAddress a), (createdAddress b), Hcreated; simpl;
      congruence.
Qed.

Lemma head_ignores_returnValue a b x y w :
  assertEqualRunTxResults_head (withReturnValue x a) (withReturnValue y b) w
  = assertEqualRunTxResults_head a b w.
Proof. reflexivity. Qed.

(** So a difference in [returnValue] changes nothing then. *)
Lemma returnValue_ignored_when_created a b x y w :
  createdAddress a <> None \/ createdAddress b <> None ->
  assertEqualRunTxResults (withReturnValue x a) (withReturnValue y b) w
  = assertEqualRunTxResults a b w.
Proof.
  intros H.
  rewrite !assertEqualRunTxResults_created by assumption.
  apply head_ignores_returnValue.
Qed.

(** C3.  For two results on which every earlier check passes, the
    [returnValue] bytes are compared, byte for byte, exactly when no contract
    was created in either result: then the comparison returns on equal bytes
    and otherwise traces both values and throws "Different returnValue".
    When a contract was created the comparison returns whatever the two
    [returnValue]s are. *)
Theorem returnValue_compared_iff_no_contract_created a b w :
  fst (assertEqualRunTxResults_head a b w) = Returned tt ->
  assertEqualRunTxResults a b w
  = if isUndefined (createdAddress a) && isUndefined (createdAddress b)
    then
      if Buffer_equals (returnValue (execResult a))
                       (returnValue (execResult b))
      then (Returned tt, w)
      else (Thrown (Error "Different returnValue"),
            logged w (ConsoleTrace
              ("Different returnValue: "
               ++ Buffer_toString_hex (returnValue (execResult a))
               ++ " !== "
               ++ Buffer_toString_hex (returnValue (execResult b)))))
    else (Returned tt, w).
Proof.
  intros Hhead%head_returned_world.
  rewrite assertEqualRunTxResults_refines_spec.
  unfold assertEqualRunTxResults_spec.
  rewrite (bind_returned _ _ _ Hhead).
  destruct (isUndefined (createdAddress a)
            && isUndefined (createdAddress b)); [|reflexivity].
  unfold when at 1, assertEqualReturnValue, returnValueHex.
  rewrite Buffer_toString_hex_eqb.
  now destruct (Buffer_equals _ _).
Qed.

(** C9.  When the comparison reaches the check on [returnValue], the
    reference result has no [createdAddress] if and only if the candidate
    result has none, so the guard of the source (the reference result's
    [createdAddress] is undefined) and the guard "no contract was created in
    either result" give the same comparison. *)
Theorem createdAddress_guard_equivalent a b w :
  fst (assertEqualRunTxResults_head a b w) = Returned tt ->
  (createdAddress a = None <-> createdAddress b = None)
  /\ (isUndefined (createdAddress a)
      = isUndefined (createdAddress a) && isUndefined (createdAddress b))
  /\ assertEqualRunTxResults a b w = assertEqualRunTxResults_spec a b w.
Proof.
  intros Hhead%head_returned_agree.
  destruct Hhead as (_ & _ & Hc & _).
  repeat split.
  - congruence.
  - congruence.
  - rewrite <- Hc. now destruct (createdAddress a).
  - apply assertEqualRunTxResults_refines_spec.
Qed.

Implicit Types (x y : Account).

Lemma assertEqualAccounts_agree x y w :
  agreeAccounts x y -> assertEqualAccounts x y w = (Returned tt, w).
Proof.
  intros (Hb & Hn & Hc). unfold assertEqualAccounts.
  now rewrite Hb, Hn, Hc, !Z.eqb_refl, Buffer_equals_refl.
Qed.

Lemma assertEqualAccounts_returned x y w :
  fst (assertEqualAccounts x y w) = Returned tt -> agreeAccounts x y.
Proof.
  unfold assertEqualAccounts, agreeAccounts.
  destruct (balance x =? balance y) eqn:Hb; [|eff_unfold; discriminate].
  destruct (Buffer_equals (codeHash x) (codeHash y)) eqn:Hc;
    [|eff_unfold; discriminate].
  destruct (nonce x =? nonce y) eqn:Hn; [|eff_unfold; discriminate].
  intros _. apply Z.eqb_eq in Hb, Hn. apply Buffer_equals_true in Hc. auto.
Qed.

(** C5.  Two accounts pass [assertEqualAccounts] exactly when their
    balances are the same integer, their nonces are the same integer and
    their code hashes are the same bytes; a passing comparison leaves the
    world untouched, and the two storage roots never enter the verdict. *)
Theorem assertEqualAccounts_decided_by_three_fields x y w :
  (fst (assertEqualAccounts x y w) = Returned tt <-> agreeAccounts x y)
  /\ (assertEqualAccounts x y w = (Returned tt, w) <-> agreeAccounts x y)
  /\ (forall rx ry,
        assertEqualAccounts (withStorageRoot rx x) (withStorageRoot ry y) w
        = assertEqualAccounts x y w).
Proof.
  split; [split | split; [split |]].
  - apply assertEqualAccounts_returned.
  - intros H. now rewrite (assertEqualAccounts_agree w H).
  - intros H. apply (assertEqualAccounts_returned x y w). now rewrite H.
  - apply assertEqualAccounts_agree.
  - reflexivity.
Qed.

End ComparatorClaims.

(* ===================================================================== *)
(** ** Properties of the [DualModeAdapter]                                *)
(* ===================================================================== *)

Section DualFacts.

Context {RT : Runtime}.
Variables E R : Type.
Variable this : DualModeAdapter.t E R.
Implicit Types (w : World (DualState E R)).

Local Abbreviation reference := (DualModeAdapter._ethereumJSAdapter this).
Local Abbreviation candidate := (DualModeAdapter._rethnetAdapter this).

Lemma on_ethereumJS {A} (c : Call A) w :
  DualModeAdapter.ethereumJS this c w
  = (fst (perform reference c (ethereumJSWorld w)),
     afterEthereumJS c w (snd (perform reference c (ethereumJSWorld w)))).
Proof.
  unfold DualModeAdapter.ethereumJS, ethereumJSWorld, afterEthereumJS.
  now destruct (perform _ c _).
Qed.

Lemma on_rethnet {A} (c : Call A) w :
  DualModeAdapter.rethnet this c w
  = (fst (perform candidate c (rethnetWorld w)),
     afterRethnet c w (snd (perform candidate c (rethnetWorld w)))).
Proof.
  unfold DualModeAdapter.rethnet, rethnetWorld, afterRethnet.
  now destruct (perform _ c _).
Qed.

(** A call made on the reference backend alone leaves the candidate's
    state as it was. *)
Lemma ethereumJS_keeps_candidate {A} (c : Call A) w :
  rethnetState (state (snd (DualModeAdapter.ethereumJS this c w)))
  = rethnetState (state w).
Proof. now rewrite on_ethereumJS. Qed.

(** The shape shared by the write operations that reach both backends:
    the candidate first, the reference second. *)
Lemma replicated_run (c : Call unit) w :
  bind (DualModeAdapter.rethnet this c)
       (fun _ => DualModeAdapter.ethereumJS this c) w
  = match perform candidate c (rethnetWorld w) with
    | (Thrown e, w1) => (Thrown e, afterRethnet c w w1)
    | (Returned _, w1) =>
        let w' := afterRethnet c w w1 in
        (fst (perform reference c (ethereumJSWorld w')),
         afterEthereumJS c w'
           (snd (perform reference c (ethereumJSWorld w'))))
    end.
Proof.
  unfold bind. rewrite on_rethnet.
  destruct (perform candidate c (rethnetWorld w)) as [[[]|e] w1]; simpl;
    [apply on_ethereumJS | reflexivity].
Qed.

(** When such an operation returns, both backends have performed the call,
    each on its own state, and the candidate was called first. *)
Lemma replicated_returned (c : Call unit) w :
  fst (bind (DualModeAdapter.rethnet this c)
            (fun _ => DualModeAdapter.ethereumJS this c) w) = Returned tt ->
  exists (w1 : World R) (w2 : World E),
    perform candidate c (rethnetWorld w) = (Returned tt, w1)
    /\ perform reference c
         (mkWorld (ethereumJSState (state w)) (console w1))
       = (Returned tt, w2)
    /\ snd (bind (DualModeAdapter.rethnet this c)
                 (fun _ => DualModeAdapter.ethereumJS this c) w)
       = mkWorld
           (mkDualState (state w2) (state w1)
              (invocations (state w)
               ++ [mkInvocation Rethnet c; mkInvocation EthereumJS c]))
           (console w2).
Proof.
  rewrite replicated_run.
  destruct (perform candidate c (rethnetWorld w)) as [[[]|e] w1] eqn:Hc;
    simpl; [|discriminate].
  unfold ethereumJSWorld at 1 2; simpl.
  destruct (perform reference c _) as [[[]|e] w2] eqn:Hr; simpl;
    [|discriminate].
  intros _. exists w1, w2. split; [reflexivity | split; [exact Hr |]].
  unfold afterEthereumJS, afterRethnet; simpl. now rewrite <- app_assoc.
Qed.

End DualFacts.

Section DualClaims.

Context {RT : Runtime}.
Variables E R : Type.
Variable this : DualModeAdapter.t E R.
Implicit Types (w : World (DualState E R)).

Local Abbreviation reference := (DualModeAdapter._ethereumJSAdapter this).
Local Abbreviation candidate := (DualModeAdapter._rethnetAdapter this).
Local Abbreviation dual := (DualModeAdapter.asVMAdapter this).

(** Six of the seven write operations reach both backends: when one of
    them returns, the candidate has performed the call and then the
    reference has, with the same arguments. *)
Lemma write_replicated (op : WriteOp) w :
  isPutContractCode op = false ->
  fst (perform dual (writeCall op) w) = Returned tt ->
  exists (w1 : World R) (w2 : World E),
    perform candidate (writeCall op) (rethnetWorld w) = (Returned tt, w1)
    /\ perform reference (writeCall op)
         (mkWorld (ethereumJSState (state w)) (console w1))
       = (Returned tt, w2)
    /\ snd (perform dual (writeCall op) w)
       = mkWorld
           (mkDualState (state w2) (state w1)
              (invocations (state w)
               ++ [mkInvocation Rethnet (writeCall op);
                   mkInvocation EthereumJS (writeCall op)]))
           (console w2).
Proof.
  destruct op; intros Hop Hret; try discriminate Hop;
    exact (replicated_returned this _ w Hret).
Qed.

(** [putContractCode] reaches the reference backend only. *)
Lemma putContractCode_reference_only address value w :
  DualModeAdapter.putContractCode this address value w
  = (fst (perform reference (PutContractCode address value)
            (ethereumJSWorld w)),
     afterEthereumJS (PutContractCode address value) w
       (snd (perform reference (PutContractCode address value)
               (ethereumJSWorld w)))).
Proof. apply on_ethereumJS. Qed.

Lemma replicated_outcome (c : Call unit) w :
  fst (bind (DualModeAdapter.rethnet this c)
            (fun _ => DualModeAdapter.ethereumJS this c) w)
  = firstFailure
      (fst (perform candidate c (rethnetWorld w)))
      (fst (perform reference c
              (mkWorld (ethereumJSState (state w))
                 (console (snd (perform candidate c (rethnetWorld w))))))).
Proof.
  rewrite replicated_run.
  destruct (perform candidate c (rethnetWorld w)) as [[[]|e] w1];
    reflexivity.
Qed.

Lemma replicated_forgets_past (c : Call unit) past w :
  fst (bind (DualModeAdapter.rethnet this c)
            (fun _ => DualModeAdapter.ethereumJS this c)
         (withInvocations past w))
  = fst (bind (DualModeAdapter.rethnet this c)
              (fun _ => DualModeAdapter.ethereumJS this c) w).
Proof.
  rewrite !replicated_run.
  unfold withInvocations, rethnetWorld; simpl.
  destruct (perform candidate c _) as [[[]|e] w1]; reflexivity.
Qed.

(** C2, as the code has it.  The adapter keeps no record of an open block
    and checks no order of calls: [startBlock] and [addBlockRewards] call
    the candidate and then the reference, they throw what the first failing
    backend call throws and return when both calls return, and the calls
    made earlier in the session play no part in that. *)
Theorem lifecycle_outcome_is_the_backends w :
  fst (DualModeAdapter.startBlock this w)
  = firstFailure
      (fst (perform candidate StartBlock (rethnetWorld w)))
      (fst (perform reference StartBlock
              (mkWorld (ethereumJSState (state w))
                 (console (snd (perform candidate StartBlock
                                  (rethnetWorld w)))))))
  /\ (forall rewards,
        fst (DualModeAdapter.addBlockRewards this rewards w)
        = firstFailure
            (fst (perform candidate (AddBlockRewards rewards)
                    (rethnetWorld w)))
            (fst (perform reference (AddBlockRewards rewards)
                    (mkWorld (ethereumJSState (state w))
                       (console (snd (perform candidate
                                        (AddBlockRewards rewards)
                                        (rethnetWorld w))))))))
  /\ (forall past,
        fst (DualModeAdapter.startBlock this (withInvocations past w))
        = fst (DualModeAdapter.startBlock this w))
  /\ (forall past rewards,
        fst (DualModeAdapter.addBlockRewards this rewards
               (withInvocations past w))
        = fst (DualModeAdapter.addBlockRewards this rewards w)).
Proof.
  split; [apply replicated_outcome | split; [|split]].
  - intros rewards. apply replicated_outcome.
  - intros past. apply replicated_forgets_past.
  - intros past rewards. apply replicated_forgets_past.
Qed.

End DualClaims.

(** C2, as the specification states it, fails: in a session where nothing
    has been called yet, [addBlockRewards] returns, and so does a second
    [startBlock] right after the first. *)
Lemma lifecycle_calls_out_of_order_return :
  invocations (state Example.idle) = []
  /\ fst (DualModeAdapter.addBlockRewards Example.dual
            [(Example.addressAA, 5)] Example.idle) = Returned tt
  /\ fst (bind (DualModeAdapter.startBlock Example.dual)
               (fun _ => DualModeAdapter.startBlock Example.dual)
               Example.idle) = Returned tt.
Proof. repeat split. Qed.

(** C1.  [putContractCode] on the adapter returns after writing the code to
    the reference backend only: the candidate backend is not called and its
    state is what it was, so the next [getContractCode] for that address
    finds the two backends apart. *)
Theorem putContractCode_leaves_candidate_unwritten :
  let code := [x60; x00] in
  let call := PutContractCode (RT := Example.runtime) Example.addressAA code in
  let done :=
    DualModeAdapter.putContractCode Example.dual Example.addressAA code
      Example.idle in
  fst done = Returned tt
  /\ invocations (state (snd done)) = [mkInvocation EthereumJS call]
  /\ rethnetState (state (snd done)) = rethnetState (state Example.idle)
  /\ fst (perform Example.backend (GetContractCode Example.addressAA)
            (ethereumJSWorld (snd done))) = Returned code
  /\ fst (perform Example.backend (GetContractCode Example.addressAA)
            (rethnetWorld (snd done))) = Returned []
  /\ fst (DualModeAdapter.getContractCode Example.dual Example.addressAA
            (snd done)) = Thrown (Error "Different contract code").
Proof. repeat split. Qed.

(* ===================================================================== *)
(** ** The adapter over a [RethnetAdapter] candidate                      *)
(* ===================================================================== *)

Section DualOverRethnet.

Context {RT : Runtime}.
Variables E SM : Type.
Context {EVM : RethnetEvm SM}.
Variable reference : VMAdapter E.
Variable selectHardfork : bigint -> string.

Local Abbreviation candidate := (RethnetAdapter.asVMAdapter selectHardfork).
Local Abbreviation this := (DualModeAdapter.mk reference candidate).

Implicit Types (w : World (DualState E SM)).

(** What the candidate lacks, it refuses in every state. *)
Lemma candidate_not_implemented {A} (c : Call A) (wc : World SM) :
  unsupportedByCandidate c = true ->
  perform candidate c wc = (Thrown (Error "not implemented"), wc).
Proof. destruct c; simpl; intros H; try discriminate H; reflexivity. Qed.

(** The calls handed to the reference backend alone. *)
Lemma reference_only {A} (c : Call A) w :
  unsupportedByCandidate c = true ->
  perform (DualModeAdapter.asVMAdapter this) c w
  = (fst (perform reference c (ethereumJSWorld w)),
     afterEthereumJS c w (snd (perform reference c (ethereumJSWorld w)))).
Proof.
  intros H. destruct c; try discriminate H; exact (on_ethereumJS this _ w).
Qed.

(** [restoreContext], which the candidate implements through
    [setStateRoot], is sent to both backends, the reference first. *)
Lemma restoreContext_both stateRoot w :
  fst (DualModeAdapter.restoreContext this stateRoot w) = Returned tt ->
  invocations (state (snd (DualModeAdapter.restoreContext this stateRoot w)))
  = (invocations (state w)
     ++ [mkInvocation EthereumJS (RestoreContext stateRoot);
         mkInvocation Rethnet (RestoreContext stateRoot)])%list.
Proof.
  unfold DualModeAdapter.restoreContext, bind.
  rewrite on_ethereumJS. cbn [DualModeAdapter._ethereumJSAdapter].
  destruct (perform reference (RestoreContext stateRoot) (ethereumJSWorld w))
    as [[[]|e] w1]; simpl; [|discriminate].
  rewrite on_rethnet; simpl. intros _. now rewrite <- app_assoc.
Qed.

(** C8.  When [startBlock] of the adapter returns, the candidate's state
    manager has taken its checkpoint first (on the console as the caller
    left it), the reference backend has started its block second (on the
    console as the candidate left it), and both have done so by the time of
    the return. *)
Theorem startBlock_checkpoints_candidate_first w :
  fst (DualModeAdapter.startBlock this w) = Returned tt ->
  exists (w1 : World SM) (w2 : World E),
    state_checkpoint (rethnetWorld w) = (Returned tt, w1)
    /\ vm_startBlock reference
         (mkWorld (ethereumJSState (state w)) (console w1))
       = (Returned tt, w2)
    /\ snd (DualModeAdapter.startBlock this w)
       = mkWorld
           (mkDualState (state w2) (state w1)
              (invocations (state w)
               ++ [mkInvocation Rethnet StartBlock;
                   mkInvocation EthereumJS StartBlock]))
           (console w2).
Proof. exact (replicated_returned this StartBlock w). Qed.

(** If the candidate's checkpoint throws, the reference backend is not
    called at all. *)
Lemma startBlock_candidate_throws w e (w1 : World SM) :
  state_checkpoint (rethnetWorld w) = (Thrown e, w1) ->
  DualModeAdapter.startBlock this w
  = (Thrown e, afterRethnet StartBlock w w1).
Proof.
  intros H. unfold DualModeAdapter.startBlock.
  rewrite replicated_run.
  change (perform (DualModeAdapter._rethnetAdapter this) StartBlock
            (rethnetWorld w))
    with (state_checkpoint (rethnetWorld w)).
  now rewrite H.
Qed.

End DualOverRethnet.

(** Every other call gets past the adapter: over an engine that is down, it
    returns or throws the engine's error, not "not implemented". *)
Lemma supported_call_reaches_engine {RT : Runtime} {A} (c : Call A) :
  unsupportedByCandidate c = false ->
  fst (perform
         (RethnetAdapter.asVMAdapter (EVM := brokenEvm) (fun _ => ""))
         c (mkWorld tt []))
  <> Thrown (Error "not implemented").
Proof. destruct c; intros H; try discriminate H; cbn; discriminate. Qed.

(** So the calls that the candidate does not support are the three tracing
    calls and [setBlockContext], and no other. *)
Lemma notSupportedByCandidate_iff {RT : Runtime} {A} (c : Call A) :
  notSupportedByCandidate c <-> unsupportedByCandidate c = true.
Proof.
  split.
  - intros H. destruct (unsupportedByCandidate c) eqn:Hc; [reflexivity|].
    elim (supported_call_reaches_engine c Hc).
    now rewrite (H unit brokenEvm (fun _ => "") (mkWorld tt [])).
  - intros H SM EVM selectHardfork w. now apply candidate_not_implemented.
Qed.

(** The run of [restoreContext] over a [RethnetAdapter] candidate: the
    reference restores first; if it returns, the candidate's state manager
    sets its state root, and what it throws leaves the adapter. *)
Lemma restoreContext_run {RT : Runtime} (E SM : Type) (EVM : RethnetEvm SM)
    (reference : VMAdapter E) (selectHardfork : bigint -> string)
    (stateRoot : Buffer) (w : World (DualState E SM)) :
  DualModeAdapter.restoreContext
    (DualModeAdapter.mk reference (RethnetAdapter.asVMAdapter selectHardfork))
    stateRoot w
  = match perform reference (RestoreContext stateRoot) (ethereumJSWorld w)
    with
    | (Thrown e, w1) =>
        (Thrown e, afterEthereumJS (RestoreContext stateRoot) w w1)
    | (Returned _, w1) =>
        (fst (state_setStateRoot stateRoot
                (mkWorld (rethnetState (state w)) (console w1))),
         afterBoth (RestoreContext stateRoot) w w1
           (snd (state_setStateRoot stateRoot
                   (mkWorld (rethnetState (state w)) (console w1)))))
    end.
Proof.
  unfold DualModeAdapter.restoreContext, bind.
  rewrite on_ethereumJS. cbn [DualModeAdapter._ethereumJSAdapter].
  destruct (perform reference (RestoreContext stateRoot) (ethereumJSWorld w))
    as [[[]|e] w1]; simpl; [|reflexivity].
  rewrite on_rethnet. unfold rethnetWorld, afterEthereumJS, afterRethnet,
    afterBoth. simpl. now rewrite <- app_assoc.
Qed.

(** C7, as the code has it.  The operations that the candidate backend does
    not support are [traceTransaction], [enableTracing], [disableTracing]
    and [setBlockContext], and the adapter hands each of them to the
    reference backend alone: the adapter's completion is the reference
    backend's, the candidate is not called and keeps its state, and the
    adapter compares and prints nothing.  [restoreContext], the switch to a
    given state root, is not among them: the candidate implements it, and
    the adapter sends it to the reference and then to the candidate, whose
    error, if it throws, is the adapter's. *)
Theorem tracing_reference_only_restoreContext_both
    {RT : Runtime} (E SM : Type) (EVM : RethnetEvm SM)
    (reference : VMAdapter E) (selectHardfork : bigint -> string)
    (w : World (DualState E SM)) :
  let this :=
    DualModeAdapter.mk reference (RethnetAdapter.asVMAdapter selectHardfork)
  in
  (forall A (c : Call A),
     notSupportedByCandidate c <-> unsupportedByCandidate c = true)
  /\ (forall A (c : Call A),
        notSupportedByCandidate c ->
        perform (DualModeAdapter.asVMAdapter this) c w
        = (fst (perform reference c (ethereumJSWorld w)),
           afterEthereumJS c w
             (snd (perform reference c (ethereumJSWorld w)))))
  /\ (forall stateRoot,
        DualModeAdapter.restoreContext this stateRoot w
        = match perform reference (RestoreContext stateRoot)
                  (ethereumJSWorld w)
          with
          | (Thrown e, w1) =>
              (Thrown e, afterEthereumJS (RestoreContext stateRoot) w w1)
          | (Returned _, w1) =>
              (fst (state_setStateRoot stateRoot
                      (mkWorld (rethnetState (state w)) (console w1))),
               afterBoth (RestoreContext stateRoot) w w1
                 (snd (state_setStateRoot stateRoot
                         (mkWorld (rethnetState (state w)) (console w1)))))
          end).
Proof.
  cbv zeta. split; [|split].
  - intros A c. apply notSupportedByCandidate_iff.
  - intros A c H%notSupportedByCandidate_iff. now apply reference_only.
  - intros stateRoot. apply restoreContext_run.
Qed.

(** C7, as the specification states it, fails for the switch to a state
    root: [restoreContext] reaches the candidate backend, which changes its
    state, and when the candidate throws after the reference has returned,
    the adapter throws the candidate's error. *)
Lemma restoreContext_reaches_the_candidate :
  invocations
    (state (snd (DualModeAdapter.restoreContext Example.dual [x01]
                   Example.idle)))
  = [mkInvocation EthereumJS
       (RestoreContext (RT := Example.runtime) [x01]);
     mkInvocation Rethnet (RestoreContext (RT := Example.runtime) [x01])]
  /\ Example.root (rethnetState (state Example.idle)) = []
  /\ Example.root
       (rethnetState
          (state (snd (DualModeAdapter.restoreContext Example.dual [x01]
                         Example.idle))))
     = [x01]
  /\ fst (perform Example.backend
            (RestoreContext (RT := Example.runtime) [x01])
            (ethereumJSWorld Example.brokenCandidateSession))
     = Returned tt
  /\ fst (DualModeAdapter.restoreContext Example.dualBrokenCandidate [x01]
            Example.brokenCandidateSession)
     = Thrown (Error "engine down").
Proof. repeat split. Qed.

Lemma tracing_reference_only_witness :
  notSupportedByCandidate (RT := Example.runtime) DisableTracing
  /\ DualModeAdapter.disableTracing Example.dualTracing Example.idle
     = (Returned tt,
        afterEthereumJS (RT := Example.runtime) DisableTracing Example.idle
          (ethereumJSWorld Example.idle))
  /\ fst (DualModeAdapter.traceTransaction Example.dualTracing [x01]
            Example.someBlock tt Example.idle)
     = Returned "structLogs".
Proof.
  pose proof (tracing_reference_only_restoreContext_both
                (RT := Example.runtime) Example.evm
                Example.tracingBackend Example.selectHardfork Example.idle)
    as (_ & Honly & _).
  assert (Hlacks : forall A (c : Call (RT := Example.runtime) A),
            unsupportedByCandidate c = true -> notSupportedByCandidate c).
  { intros A c Hc SM EVM selectHardfork w.
    now apply candidate_not_implemented. }
  split; [exact (Hlacks _ DisableTracing eq_refl) | split].
  - exact (Honly _ DisableTracing (Hlacks _ DisableTracing eq_refl)).
  - exact (f_equal fst
             (Honly _
                (TraceTransaction (RT := Example.runtime) [x01]
                   Example.someBlock tt)
                (Hlacks _
                   (TraceTransaction (RT := Example.runtime) [x01]
                      Example.someBlock tt)
                   eq_refl))).
Defined.

Lemma startBlock_witness :
  fst (DualModeAdapter.startBlock Example.dual Example.idle) = Returned tt
  /\ exists (w1 w2 : World Example.Engine),
      Example.checkpoints (state w1) = [Example.mkTables [] [] []]
      /\ Example.checkpoints (state w2) = [Example.mkTables [] [] []]
      /\ snd (DualModeAdapter.startBlock Example.dual Example.idle)
         = mkWorld
             (mkDualState (state w2) (state w1)
                [mkInvocation Rethnet StartBlock;
                 mkInvocation EthereumJS StartBlock])
             (console w2).
Proof.
  split; [reflexivity|].
  destruct (startBlock_checkpoints_candidate_first (EVM := Example.evm)
              Example.backend Example.selectHardfork Example.idle eq_refl)
    as (w1 & w2 & H1 & H2 & H3).
  exists w1, w2.
  injection H1 as <-. injection H2 as <-.
  repeat split. 
Defined.

Lemma returnValue_compared_witness :
  fst (assertEqualRunTxResults_head
         Example.callA Example.callB Example.quiet) = Returned tt
  /\ assertEqualRunTxResults
       Example.callA Example.callB Example.quiet
     = (Thrown (Error "Different returnValue"),
        logged Example.quiet
          (ConsoleTrace "Different returnValue: 60 !== 61"))
  /\ assertEqualRunTxResults
       Example.createA Example.createB Example.quiet
     = (Returned tt, Example.quiet).
Proof.
  split; [reflexivity | split].
  - exact (returnValue_compared_iff_no_contract_created
             Example.callA Example.callB
             Example.quiet eq_refl).
  - exact (returnValue_compared_iff_no_contract_created
             Example.createA Example.createB
             Example.quiet eq_refl).
Defined.

Lemma createdAddress_guard_witness :
  fst (assertEqualRunTxResults_head
         Example.createA Example.createB Example.quiet) = Returned tt
  /\ (createdAddress Example.createA = None
      <-> createdAddress Example.createB = None)
  /\ (false = false && false)
  /\ assertEqualRunTxResults
       Example.createA Example.createB Example.quiet
     = assertEqualRunTxResults_spec
         Example.createA Example.createB Example.quiet.
Proof.
  split; [reflexivity|].
  exact (createdAddress_guard_equivalent
           Example.createA Example.createB Example.quiet eq_refl).
Defined.

(* ===================================================================== *)
(** ** Divergence reports                                                 *)
(* ===================================================================== *)

Lemma optString_neq_eqb (a b : option string) :
  optString_neq a b = negb (optString_eqb a b).
Proof. now destruct a, b. Qed.

Lemma createdAddress_neq_eqb (a b : RunTxResult) :
  optString_neq (createdAddressString a) (createdAddressString b)
  = negb (optAddress_eqb (createdAddress a) (createdAddress b)).
Proof.
  unfold createdAddressString.
  destruct (createdAddress a) as [[x]|], (createdAddress b) as [[y]|];
    simpl; try reflexivity.
  f_equal. apply Buffer_toString_hex_eqb.
Qed.

Section DivergenceFacts.

Context {RT : Runtime}.
Variable S : Type.
Implicit Types (w : World S).

(** [assertEqualRunTxResults] returns on results with no divergence, and
    otherwise traces the divergence line and throws the divergence error. *)
Lemma assertEqualRunTxResults_divergence (a b : RunTxResult) w :
  assertEqualRunTxResults a b w
  = match runTxDivergence a b with
    | None => (Returned tt, w)
    | Some d => (Thrown (divergenceError d), logged w (divergenceLine d))
    end.
Proof.
  unfold assertEqualRunTxResults, assertEqualRunTxResults_head,
         assertEqualReturnValue, runTxDivergence, returnValueHex,
         exceptionErrorError, exceptionErrorType.
  rewrite createdAddress_neq_eqb, !optString_neq_eqb,
          Buffer_toString_hex_eqb.
  destruct (totalGasSpent a =? totalGasSpent b); [|reflexivity].
  destruct (gasRefund a =? gasRefund b); [|reflexivity].
  destruct (optAddress_eqb _ _); [|reflexivity].
  destruct (optString_eqb _ _); [|reflexivity].
  destruct (optString_eqb _ _); [|reflexivity].
  destruct (createdAddress a); [reflexivity|].
  destruct (Buffer_equals _ _); reflexivity.
Qed.

Lemma assertEqualAccounts_divergence (x y : Account) w :
  assertEqualAccounts x y w
  = match accountDivergence x y with
    | None => (Returned tt, w)
    | Some d => (Thrown (divergenceError d), logged w (divergenceLine d))
    end.
Proof.
  unfold assertEqualAccounts, accountDivergence.
  destruct (balance x =? balance y); [|reflexivity].
  destruct (Buffer_equals _ _); [|reflexivity].
  destruct (nonce x =? nonce y); reflexivity.
Qed.

End DivergenceFacts.

Lemma optString_eqb_true (a b : option string) :
  optString_eqb a b = true <-> a = b.
Proof.
  destruct a as [x|], b as [y|]; simpl; split; try congruence.
  - intros H%String.eqb_eq. congruence.
  - intros [= ->]. apply String.eqb_refl.
Qed.

Lemma optAddress_eqb_true (a b : option Address) :
  optAddress_eqb a b = true <-> a = b.
Proof.
  destruct a as [[x]|], b as [[y]|]; simpl; split; try congruence.
  - intros H%Buffer_equals_true. congruence.
  - intros [= ->]. apply Buffer_equals_refl.
Qed.

(** Two results have no divergence before [returnValue] exactly when they
    agree on the five fields checked first. *)
Lemma agreeBeforeReturnValue_decide (a b : RunTxResult) :
  agreeBeforeReturnValue a b
  <-> (totalGasSpent a =? totalGasSpent b)
      && (gasRefund a =? gasRefund b)
      && optAddress_eqb (createdAddress a) (createdAddress b)
      && optString_eqb (option_map error (exceptionError (execResult a)))
                       (option_map error (exceptionError (execResult b)))
      && optString_eqb (option_map errorType (exceptionError (execResult a)))
                       (option_map errorType (exceptionError (execResult b)))
      = true.
Proof.
  unfold agreeBeforeReturnValue.
  rewrite !andb_true_iff, !Z.eqb_eq, optAddress_eqb_true,
          !optString_eqb_true.
  tauto.
Qed.

(** The error "Different returnValue" is thrown exactly for results that
    agree on every earlier field, carry no created address on either side,
    and differ in the bytes of [returnValue]. *)
Lemma returnValue_error_iff {S} (a b : RunTxResult) (w : World S) :
  fst (assertEqualRunTxResults a b w) = Thrown (Error "Different returnValue")
  <-> agreeBeforeReturnValue a b
      /\ createdAddress a = None /\ createdAddress b = None
      /\ returnValue (execResult a) <> returnValue (execResult b).
Proof.
  rewrite assertEqualRunTxResults_divergence, agreeBeforeReturnValue_decide.
  unfold runTxDivergence.
  destruct (totalGasSpent a =? totalGasSpent b); simpl;
    [|split; [discriminate | intros [[=] _]]].
  destruct (gasRefund a =? gasRefund b); simpl;
    [|split; [discriminate | intros [[=] _]]].
  destruct (optAddress_eqb _ _) eqn:Hc; simpl;
    [|split; [discriminate | intros [[=] _]]].
  destruct (optString_eqb _ _); simpl;
    [|split; [discriminate | intros [[=] _]]].
  destruct (optString_eqb _ _); simpl;
    [|split; [discriminate | intros [[=] _]]].
  apply optAddress_eqb_true in Hc. rewrite <- Hc.
  destruct (createdAddress a) as [addr|]; simpl.
  - split; [discriminate | intros (_ & [=] & _)].
  - destruct (Buffer_equals_spec (returnValue (execResult a))
                (returnValue (execResult b))) as [Heq|Hne]; simpl.
    + split; [discriminate | intros (_ & _ & _ & Hne); now elim Hne].
    + split; [now auto | reflexivity].
Qed.

Section DualDivergence.

Context {RT : Runtime}.
Variables E R : Type.
Variable this : DualModeAdapter.t E R.
Implicit Types (w : World (DualState E R)).

Local Abbreviation reference := (DualModeAdapter._ethereumJSAdapter this).
Local Abbreviation candidate := (DualModeAdapter._rethnetAdapter this).
Local Abbreviation dual := (DualModeAdapter.asVMAdapter this).

Lemma ask_both {A B} (c : Call A) (k : A -> A -> Eff (DualState E R) B)
    w v1 (w1 : World E) v2 (w2 : World R) :
  perform reference c (ethereumJSWorld w) = (Returned v1, w1) ->
  perform candidate c (mkWorld (rethnetState (state w)) (console w1))
  = (Returned v2, w2) ->
  bind (DualModeAdapter.ethereumJS this c)
       (fun x => bind (DualModeAdapter.rethnet this c) (fun y => k x y)) w
  = k v1 v2 (afterBoth c w w1 w2).
Proof.
  intros H1 H2. unfold bind at 1. rewrite on_ethereumJS, H1. simpl.
  unfold bind. rewrite on_rethnet.
  unfold rethnetWorld, afterEthereumJS. simpl. rewrite H2. simpl.
  unfold afterBoth, afterRethnet. simpl. now rewrite <- app_assoc.
Qed.

(** The [catch] block of [dryRun] and [runTxInBlock] prints the dump of
    both traces as far as [JSON.stringify] lets it, and throws the error it
    caught or the one [JSON.stringify] threw. *)
Lemma printTracesAndRethrow_run {A} (t1 t2 : Trace) (e : JsError) w :
  DualModeAdapter.printTracesAndRethrow (A := A) t1 t2 e w
  = (Thrown (fst (traceDump t1 t2 e)),
     mkWorld (state w) (console w ++ snd (traceDump t1 t2 e))).
Proof.
  unfold DualModeAdapter.printTracesAndRethrow,
         DualModeAdapter.printEthereumJSTrace,
         DualModeAdapter.printRethnetTrace, traceDump, completed.
  destruct (JSON_stringify t1) as [text1|e1];
    [destruct (JSON_stringify_bigint t2) as [text2|e2]|];
    eff_unfold; now rewrite <- ?app_assoc.
Qed.

End DualDivergence.

(* ===================================================================== *)
(** ** Properties of the [RethnetAdapter]                                 *)
(* ===================================================================== *)

Lemma MAX_DIFFICULTY_value : RethnetAdapter.MAX_DIFFICULTY = 4294967295.
Proof. reflexivity. Qed.

Section RethnetFacts.

Context {RT : Runtime}.
Variable SM : Type.
Context {EVM : RethnetEvm SM}.
Variable selectHardfork : bigint -> string.
Implicit Types (w : World SM) (h : BlockHeader).

Lemma world_eta w : mkWorld (state w) (console w ++ []) = w.
Proof. destruct w; simpl; now rewrite app_nil_r. Qed.

(** Without a difficulty ([undefined]) there is nothing to cap. *)
Lemma getBlockEnvDifficulty_undefined blockNumber mix w :
  isPostMerge selectHardfork blockNumber = false ->
  RethnetAdapter._getBlockEnvDifficulty selectHardfork blockNumber None mix w
  = (Returned None, w).
Proof.
  unfold RethnetAdapter._getBlockEnvDifficulty, isPostMerge.
  now intros ->.
Qed.

(** C6.  For the header of any block, [_getBlockEnvDifficulty] returns the
    mix hash when the hardfork selected for the block number is the merge
    or later, and otherwise the difficulty, replaced by exactly 2^32 - 1
    when it is larger, in which case one warning is traced; [dryRun] puts
    that value in the [difficulty] field of the block configuration it hands
    to the engine, and [runTxInBlock] hands it to the header conversion. *)
Theorem block_env_randomness (block : Block) :
  let h := header block in
  let config f :=
    {| BlockConfig.number := number h;
       BlockConfig.coinbase := buf (coinbase h);
       BlockConfig.timestamp := timestamp h;
       BlockConfig.basefee := RethnetAdapter.dryRunBasefee block f;
       BlockConfig.gasLimit := gasLimit h;
       BlockConfig.difficulty := Some (blockEnvRandomness selectHardfork h)
    |} in
  (forall w,
     RethnetAdapter._getBlockEnvDifficulty selectHardfork (number h)
       (Some (difficulty h)) (Some (bufferToBigInt (mixHash h))) w
     = (Returned (Some (blockEnvRandomness selectHardfork h)),
        mkWorld (state w) (console w ++ clampWarning selectHardfork h)))
  /\ (forall tx f w,
        RethnetAdapter.dryRun selectHardfork tx block f w
        = bind (ethereumjsTransactionToRethnet tx)
            (fun rethnetTx =>
               bind (fun w' =>
                       (Returned tt,
                        mkWorld (state w')
                          (console w' ++ clampWarning selectHardfork h)))
                 (fun _ =>
                    bind (rethnet_guaranteedDryRun rethnetTx (config f))
                      (fun execResult =>
                         tryCatch
                           (bind (rethnetResultToRunTxResult execResult)
                              (fun result =>
                                 ret (result, trace execResult)))
                           (fun e =>
                              bind (console_log "Rethnet trace")
                                (fun _ =>
                                   bind (console_log
                                           (inspect (trace execResult)))
                                     (fun _ => throw e)))))) w)
  /\ (forall tx w,
        RethnetAdapter.runTxInBlock selectHardfork tx block w
        = bind (ethereumjsTransactionToRethnet tx)
            (fun rethnetTx =>
               bind (fun w' =>
                       (Returned tt,
                        mkWorld (state w')
                          (console w' ++ clampWarning selectHardfork h)))
                 (fun _ =>
                    bind (rethnet_run rethnetTx
                            (ethereumjsHeaderDataToRethnet h
                               (Some (blockEnvRandomness selectHardfork h))))
                      (fun rethnetResult =>
                         bind (rethnetResultToRunTxResult rethnetResult)
                           (fun result =>
                              ret (result, trace rethnetResult))))) w).
Proof.
  cbv zeta.
  assert (Hd : forall w,
    RethnetAdapter._getBlockEnvDifficulty selectHardfork
      (number (header block)) (Some (difficulty (header block)))
      (Some (bufferToBigInt (mixHash (header block)))) w
    = (Returned (Some (blockEnvRandomness selectHardfork (header block))),
       mkWorld (state w)
         (console w ++ clampWarning selectHardfork (header block)))).
  { intros w.
    unfold RethnetAdapter._getBlockEnvDifficulty, blockEnvRandomness,
           clampWarning, isPostMerge, RethnetAdapter.MAX_DIFFICULTY.
    destruct (hardforkGte _ _); simpl.
    - unfold ret. now rewrite world_eta.
    - change (2 ^ 32 - 1) with 4294967295.
      rewrite Z.gtb_ltb.
      destruct (4294967295 <? difficulty (header block)) eqn:Hlt.
      + apply Z.ltb_lt in Hlt. rewrite Z.min_r by lia. reflexivity.
      + apply Z.ltb_ge in Hlt. rewrite Z.min_l by lia.
        unfold ret. now rewrite world_eta. }
  split; [exact Hd | split].
  - intros tx f w. unfold RethnetAdapter.dryRun.
    destruct (ethereumjsTransactionToRethnet tx w) as [[rethnetTx|e] w']
      eqn:Htx.
    + bind_step Htx. symmetry. bind_step Htx. cbv beta.
      unfold bind at 1. cbv beta iota.
      symmetry. bind_step (Hd w'). reflexivity.
    + now rewrite !(bind_thrown _ _ _ Htx).
  - intros tx w. unfold RethnetAdapter.runTxInBlock.
    destruct (ethereumjsTransactionToRethnet tx w) as [[rethnetTx|e] w']
      eqn:Htx.
    + bind_step Htx. symmetry. bind_step Htx. cbv beta.
      unfold bind at 1. cbv beta iota.
      symmetry. bind_step (Hd w'). reflexivity.
    + now rewrite !(bind_thrown _ _ _ Htx).
Qed.

(** C10.  [addBlockRewards] builds its block on the dummy header, whose
    buffers hold only zero bytes and whose numbers are zero, and finalizes
    it with the rewards.  The header is a constant of the method: an engine
    whose [BlockBuilder.new] behaves differently on every other header
    gives the same run, so no header of the block in flight can show in the
    state change. *)
Theorem addBlockRewards_builds_on_dummy_header
    (new : HeaderData.t -> Eff SM BlockBuilder)
    (rewards : list (Address * bigint)) w :
  new RethnetAdapter.dummyHeader
  = BlockBuilder_new RethnetAdapter.dummyHeader ->
  RethnetAdapter.dummyHeader
  = HeaderData.mk (repeat x00 32) (repeat x00 32) (repeat x00 20)
      (repeat x00 32) (repeat x00 32) (repeat x00 32) (repeat x00 256)
      0 0 0 0 0 [] (repeat x00 32) 0
  /\ RethnetAdapter.addBlockRewards rewards w
     = bind (BlockBuilder_new RethnetAdapter.dummyHeader)
         (fun blockBuilder =>
            BlockBuilder_finalize blockBuilder
              (map (fun '(address, reward) => (buf address, reward))
                 rewards)) w
  /\ RethnetAdapter.addBlockRewards (EVM := withBlockBuilder EVM new)
       rewards w
     = RethnetAdapter.addBlockRewards rewards w.
Proof.
  intros Hnew. split; [reflexivity | split].
  - reflexivity.
  - unfold RethnetAdapter.addBlockRewards, bind. simpl.
    now rewrite Hnew.
Qed.

End RethnetFacts.

(* ===================================================================== *)
(** ** The comparator as a relation on results                            *)
(* ===================================================================== *)

Lemma optString_eqb_spec (a b : option string) :
  reflect (a = b) (optString_eqb a b).
Proof.
  destruct (optString_eqb a b) eqn:H; constructor.
  - now apply optString_eqb_true.
  - intros E. apply optString_eqb_true in E. congruence.
Qed.

Lemma optAddress_eqb_spec (a b : option Address) :
  reflect (a = b) (optAddress_eqb a b).
Proof.
  destruct (optAddress_eqb a b) eqn:H; constructor.
  - now apply optAddress_eqb_true.
  - intros E. apply optAddress_eqb_true in E. congruence.
Qed.

(** The comparison of two transaction results returns exactly when they
    agree on the five fields checked first and, if the reference result has
    no created address, on the bytes of the return value. *)
Lemma assertEqualRunTxResults_returned_iff {S} (a b : RunTxResult)
    (w : World S) :
  fst (assertEqualRunTxResults a b w) = Returned tt
  <-> agreeBeforeReturnValue a b
      /\ (createdAddress a = None
          -> returnValue (execResult a) = returnValue (execResult b)).
Proof.
  rewrite assertEqualRunTxResults_divergence, agreeBeforeReturnValue_decide.
  unfold runTxDivergence.
  destruct (totalGasSpent a =? totalGasSpent b); simpl;
    [|split; [discriminate | intros [[=] _]]].
  destruct (gasRefund a =? gasRefund b); simpl;
    [|split; [discriminate | intros [[=] _]]].
  destruct (optAddress_eqb _ _); simpl;
    [|split; [discriminate | intros [[=] _]]].
  destruct (optString_eqb _ _); simpl;
    [|split; [discriminate | intros [[=] _]]].
  destruct (optString_eqb _ _); simpl;
    [|split; [discriminate | intros [[=] _]]].
  destruct (createdAddress a) as [addr|]; simpl.
  - split; [intros _; split; [reflexivity | discriminate] | reflexivity].
  - destruct (Buffer_equals_spec (returnValue (execResult a))
                (returnValue (execResult b))) as [Heq|Hne]; simpl.
    + split; [now auto | reflexivity].
    + split; [discriminate | intros [_ H]; now elim Hne; apply H].
Qed.

Lemma sameRunTxResult_iff (a b : RunTxResult) :
  sameRunTxResult a b
  <-> agreeBeforeReturnValue a b
      /\ (createdAddress a = None
          -> returnValue (execResult a) = returnValue (execResult b)).
Proof. apply assertEqualRunTxResults_returned_iff. Qed.

(** X1.  [assertEqualRunTxResults] returns exactly when the two results have
    the same [totalGasSpent], [gasRefund], [createdAddress] and
    [exceptionError] kind and type, and the same [returnValue] bytes unless a
    contract was created.  It never touches the state; it writes nothing when
    it returns and exactly one console line when it throws. *)
Theorem comparison_verdict_and_effects {S} (a b : RunTxResult) (w : World S) :
  (fst (assertEqualRunTxResults a b w) = Returned tt
   <-> agreeBeforeReturnValue a b
       /\ (createdAddress a = None
           -> returnValue (execResult a) = returnValue (execResult b)))
  /\ state (snd (assertEqualRunTxResults a b w)) = state w
  /\ exists lines,
       console (snd (assertEqualRunTxResults a b w)) = (console w ++ lines)%list
       /\ (lines = []%list
           <-> fst (assertEqualRunTxResults a b w) = Returned tt)
       /\ (List.length lines = 1%nat
           <-> exists e, fst (assertEqualRunTxResults a b w) = Thrown e).
Proof.
  split; [apply assertEqualRunTxResults_returned_iff|].
  rewrite assertEqualRunTxResults_divergence.
  destruct (runTxDivergence a b) as [d|]; simpl.
  - split; [reflexivity|]. exists [divergenceLine d].
    split; [reflexivity | split; split; try discriminate].
    + intros _. now exists (divergenceError d).
    + reflexivity.
  - split; [reflexivity|]. exists [].
    split; [now rewrite app_nil_r | split; split; try reflexivity].
    + discriminate.
    + intros [e [=]].
Qed.

(** X2.  Passing the comparison is an equivalence relation on transaction
    results, and the verdict does not depend on the world in which the
    comparison runs. *)
Theorem comparison_is_an_equivalence :
  (forall a, sameRunTxResult a a)
  /\ (forall a b, sameRunTxResult a b -> sameRunTxResult b a)
  /\ (forall a b c,
        sameRunTxResult a b -> sameRunTxResult b c -> sameRunTxResult a c)
  /\ (forall S (w : World S) a b,
        fst (assertEqualRunTxResults a b w) = Returned tt
        <-> sameRunTxResult a b).
Proof.
  split; [|split; [|split]].
  - intros a. apply sameRunTxResult_iff. unfold agreeBeforeReturnValue.
    repeat split; reflexivity.
  - intros a b. rewrite !sameRunTxResult_iff. unfold agreeBeforeReturnValue.
    intros ((Hg & Hr & Hc & He & Ht) & Hv).
    repeat split; try congruence.
    intros Hb. symmetry. apply Hv. congruence.
  - intros a b c. rewrite !sameRunTxResult_iff. unfold agreeBeforeReturnValue.
    intros ((Hg & Hr & Hc & He & Ht) & Hv) ((Hg' & Hr' & Hc' & He' & Ht') & Hv').
    repeat split; try congruence.
    intros Ha. rewrite (Hv Ha). apply Hv'. congruence.
  - intros S w a b.
    now rewrite assertEqualRunTxResults_returned_iff, sameRunTxResult_iff.
Qed.

(** X3.  The comparison of two transaction results reports the first
    difference in the order totalGasSpent, gasRefund, createdAddress,
    exceptionError.error, exceptionError.errorType, returnValue: each error
    is thrown exactly when its field differs and every earlier field
    agrees (for [returnValue]: and no contract was created). *)
Theorem first_difference_is_reported {S} (a b : RunTxResult) (w : World S) :
  let thrown msg :=
    fst (assertEqualRunTxResults a b w) = Thrown (Error msg) in
  let errorOf r := option_map error (exceptionError (execResult r)) in
  let typeOf r := option_map errorType (exceptionError (execResult r)) in
  (thrown "Different totalGasSpent" <-> totalGasSpent a <> totalGasSpent b)
  /\ (thrown "Different gasRefund"
      <-> totalGasSpent a = totalGasSpent b /\ gasRefund a <> gasRefund b)
  /\ (thrown "Different createdAddress"
      <-> totalGasSpent a = totalGasSpent b /\ gasRefund a = gasRefund b
          /\ createdAddress a <> createdAddress b)
  /\ (thrown "Different exceptionError.error"
      <-> totalGasSpent a = totalGasSpent b /\ gasRefund a = gasRefund b
          /\ createdAddress a = createdAddress b /\ errorOf a <> errorOf b)
  /\ (thrown "Different exceptionError.errorType"
      <-> totalGasSpent a = totalGasSpent b /\ gasRefund a = gasRefund b
          /\ createdAddress a = createdAddress b /\ errorOf a = errorOf b
          /\ typeOf a <> typeOf b)
  /\ (thrown "Different returnValue"
      <-> agreeBeforeReturnValue a b
          /\ createdAddress a = None /\ createdAddress b = None
          /\ returnValue (execResult a) <> returnValue (execResult b)).
Proof.
  cbv zeta.
  split; [|split; [|split; [|split; [|split]]]];
    [ .. | apply returnValue_error_iff ];
    rewrite assertEqualRunTxResults_divergence; unfold runTxDivergence;
    destruct (Z.eqb_spec (totalGasSpent a) (totalGasSpent b));
    destruct (Z.eqb_spec (gasRefund a) (gasRefund b));
    destruct (optAddress_eqb_spec (createdAddress a) (createdAddress b));
    destruct (optString_eqb_spec
                (option_map error (exceptionError (execResult a)))
                (option_map error (exceptionError (execResult b))));
    destruct (optString_eqb_spec
                (option_map errorType (exceptionError (execResult a)))
                (option_map errorType (exceptionError (execResult b))));
    simpl;
    try (split; [discriminate | tauto]);
    try (split; [tauto | reflexivity ]);
    try (split; [intros _; tauto | reflexivity ]);
    destruct (createdAddress a); try destruct (Buffer_equals _ _); simpl;
    split; try discriminate; tauto.
Qed.

(** X4.  The comparison of two accounts reports the first difference in the
    order balance, codeHash, nonce. *)
Theorem first_account_difference_is_reported {RT : Runtime} {S}
    (x y : Account) (w : World S) :
  let thrown msg := fst (assertEqualAccounts x y w) = Thrown (Error msg) in
  (thrown "Different balance" <-> balance x <> balance y)
  /\ (thrown "Different codeHash"
      <-> balance x = balance y /\ codeHash x <> codeHash y)
  /\ (thrown "Different nonce"
      <-> balance x = balance y /\ codeHash x = codeHash y
          /\ nonce x <> nonce y).
Proof.
  cbv zeta.
  split; [|split];
    rewrite assertEqualAccounts_divergence; unfold accountDivergence;
    destruct (Z.eqb_spec (balance x) (balance y));
    destruct (Buffer_equals_spec (codeHash x) (codeHash y));
    destruct (Z.eqb_spec (nonce x) (nonce y));
    simpl;
    try (split; [discriminate | tauto]);
    try (split; [tauto | reflexivity ]);
    try (split; [intros _; tauto | reflexivity ]).
Qed.

(* ===================================================================== *)
(** ** Answers and failures of the two backends                           *)
(* ===================================================================== *)

Section DualOutcomes.

Context {RT : Runtime}.
Variables E R : Type.
Variable this : DualModeAdapter.t E R.
Implicit Types (w : World (DualState E R)).

Local Abbreviation reference := (DualModeAdapter._ethereumJSAdapter this).
Local Abbreviation candidate := (DualModeAdapter._rethnetAdapter this).
Local Abbreviation dual := (DualModeAdapter.asVMAdapter this).

(** The reference backend throws on the first call of a sequence. *)
Lemma reference_throws_first {A B} (c : Call A)
    (k : A -> Eff (DualState E R) B) w e (w1 : World E) :
  perform reference c (ethereumJSWorld w) = (Thrown e, w1) ->
  bind (DualModeAdapter.ethereumJS this c) k w
  = (Thrown e, afterEthereumJS c w w1).
Proof.
  intros H. unfold bind. now rewrite on_ethereumJS, H.
Qed.

(** The candidate backend throws on the call that follows the reference's
    answer. *)
Lemma candidate_throws_second {A B} (c : Call A)
    (k : A -> A -> Eff (DualState E R) B) w v1 (w1 : World E) e
    (w2 : World R) :
  perform reference c (ethereumJSWorld w) = (Returned v1, w1) ->
  perform candidate c (mkWorld (rethnetState (state w)) (console w1))
  = (Thrown e, w2) ->
  bind (DualModeAdapter.ethereumJS this c)
       (fun x => bind (DualModeAdapter.rethnet this c) (fun y => k x y)) w
  = (Thrown e, afterBoth c w w1 w2).
Proof.
  intros H1 H2. unfold bind at 1. rewrite on_ethereumJS, H1. simpl.
  unfold bind. rewrite on_rethnet.
  unfold rethnetWorld, afterEthereumJS. simpl. rewrite H2. simpl.
  unfold afterBoth, afterRethnet. simpl. now rewrite <- app_assoc.
Qed.

(** X5.  When both backends answer an operation that the adapter sends to
    the reference and then to the candidate, and the answers do not diverge,
    the adapter returns the candidate's answer for [dryRun], [getStateRoot],
    [getContractStorage] and [getContractCode] and the reference's for
    [runTxInBlock], [getAccount] and [restoreContext]; both backends keep the
    state the call left them in and the adapter prints nothing. *)
Theorem agreed_answer_is_returned
    {A} (c : Call A) w v1 (w1 : World E) v2 (w2 : World R) :
  referenceThenCandidate c = true ->
  perform reference c (ethereumJSWorld w) = (Returned v1, w1) ->
  perform candidate c (mkWorld (rethnetState (state w)) (console w1))
  = (Returned v2, w2) ->
  divergenceOf c v1 v2 = None ->
  perform dual c w = (Returned (chosen c v1 v2), afterBoth c w w1 w2).
Proof.
  intros Hc H1 H2 Hd.
  destruct c; try discriminate Hc; simpl in Hd; simpl perform; simpl chosen.
  - (* dryRun *)
    destruct v1 as [r1 t1], v2 as [r2 t2].
    unfold DualModeAdapter.dryRun.
    unfold bind at 1. rewrite on_ethereumJS, H1. simpl.
    unfold bind at 1. rewrite on_rethnet.
    unfold rethnetWorld, afterEthereumJS. simpl. simpl in H2.
    rewrite H2. simpl.
    unfold tryCatch, bind at 1. simpl in Hd.
    rewrite assertEqualRunTxResults_divergence, Hd.
    unfold afterRethnet, afterBoth, ret. simpl.
    now rewrite <- !app_assoc.
  - (* getStateRoot *)
    unfold DualModeAdapter.getStateRoot.
    rewrite (ask_both _ _ _ w H1 H2).
    unfold bufferDivergence in Hd. unfold bind, when.
    destruct (Buffer_equals v1 v2); [reflexivity | discriminate Hd].
  - (* getAccount *)
    unfold DualModeAdapter.getAccount.
    rewrite (ask_both _ _ _ w H1 H2).
    unfold bind. now rewrite assertEqualAccounts_divergence, Hd.
  - (* getContractStorage *)
    unfold DualModeAdapter.getContractStorage.
    rewrite (ask_both _ _ _ w H1 H2).
    unfold bufferDivergence in Hd. unfold bind, when.
    destruct (Buffer_equals v1 v2); [reflexivity | discriminate Hd].
  - (* getContractCode *)
    unfold DualModeAdapter.getContractCode.
    rewrite (ask_both _ _ _ w H1 H2).
    unfold bufferDivergence in Hd. unfold bind, when.
    destruct (Buffer_equals v1 v2); [reflexivity | discriminate Hd].
  - (* restoreContext *)
    destruct v1, v2.
    unfold DualModeAdapter.restoreContext.
    unfold bind. rewrite on_ethereumJS, H1. simpl.
    rewrite on_rethnet. unfold rethnetWorld, afterEthereumJS. simpl.
    simpl in H2. rewrite H2. simpl.
    unfold afterRethnet, afterBoth. simpl. now rewrite <- !app_assoc.
  - (* runTxInBlock *)
    destruct v1 as [r1 t1], v2 as [r2 t2].
    unfold DualModeAdapter.runTxInBlock.
    unfold bind at 1. rewrite on_ethereumJS, H1. simpl.
    unfold bind at 1. rewrite on_rethnet.
    unfold rethnetWorld, afterEthereumJS. simpl. simpl in H2.
    rewrite H2. simpl.
    unfold tryCatch, bind at 1. simpl in Hd.
    rewrite assertEqualRunTxResults_divergence, Hd.
    unfold afterRethnet, afterBoth, ret. simpl.
    now rewrite <- !app_assoc.
Qed.

(** X6.  When both backends answer [getStateRoot], [getContractStorage] or
    [getContractCode], the adapter returns a buffer exactly when the two
    answers are the same bytes, and it is that buffer. *)
Theorem buffer_read_returns_common_value
    (r : BufferRead) w v1 (w1 : World E) v2 (w2 : World R) (v : Buffer) :
  perform reference (readCall r) (ethereumJSWorld w) = (Returned v1, w1) ->
  perform candidate (readCall r)
    (mkWorld (rethnetState (state w)) (console w1)) = (Returned v2, w2) ->
  fst (perform dual (readCall r) w) = Returned v <-> v1 = v /\ v2 = v.
Proof.
  intros H1 H2.
  destruct r; simpl readCall in *; simpl perform;
    [unfold DualModeAdapter.getStateRoot
    |unfold DualModeAdapter.getContractStorage
    |unfold DualModeAdapter.getContractCode];
    rewrite (ask_both _ _ _ w H1 H2); unfold bind, when;
    (destruct (Buffer_equals_spec v1 v2) as [->|Hne]; simpl;
     [split; [intros [= ->]; auto | intros [-> _]; reflexivity]
     |split; [discriminate | intros [-> ->]; now elim Hne]]).
Qed.

(** X7.  When both backends answer [getAccount], the adapter returns an
    account exactly when the two answers have the same balance, nonce and
    code hash, and it is the reference backend's account, storage root
    included. *)
Theorem getAccount_returns_reference_account
    (address : Address) w x (w1 : World E) y (w2 : World R) (z : Account) :
  perform reference (GetAccount address) (ethereumJSWorld w)
  = (Returned x, w1) ->
  perform candidate (GetAccount address)
    (mkWorld (rethnetState (state w)) (console w1)) = (Returned y, w2) ->
  fst (DualModeAdapter.getAccount this address w) = Returned z
  <-> agreeAccounts x y /\ z = x.
Proof.
  intros H1 H2. unfold DualModeAdapter.getAccount.
  rewrite (ask_both _ _ _ w H1 H2). unfold bind.
  destruct (assertEqualAccounts x y (afterBoth (GetAccount address) w w1 w2))
    as [[[]|e] w3] eqn:Hcmp; simpl.
  - assert (Hagree : agreeAccounts x y).
    { apply (assertEqualAccounts_returned x y
               (afterBoth (GetAccount address) w w1 w2)).
      now rewrite Hcmp. }
    split; [intros [= ->]; auto | intros [_ ->]; reflexivity].
  - split; [discriminate|]. intros [Hagree _].
    rewrite (assertEqualAccounts_agree _ Hagree) in Hcmp. discriminate.
Qed.

(** X8.  When both backends answer [dryRun] or [runTxInBlock], the adapter
    returns exactly when the two results pass the comparison; [dryRun] then
    returns the candidate's result and trace, [runTxInBlock] the
    reference's. *)
Theorem execution_returns_when_results_pass
    (tx : TypedTransaction) (block : Block) (f : option bool) w
    (dry : bool) r1 t1 (w1 : World E) r2 t2 (w2 : World R)
    (v : RunTxResult * Trace) :
  let c := if dry then DryRun tx block f else RunTxInBlock tx block in
  perform reference c (ethereumJSWorld w) = (Returned (r1, t1), w1) ->
  perform candidate c (mkWorld (rethnetState (state w)) (console w1))
  = (Returned (r2, t2), w2) ->
  fst (perform dual c w) = Returned v
  <-> sameRunTxResult r1 r2 /\ v = if dry then (r2, t2) else (r1, t1).
Proof.
  cbv zeta. intros H1 H2. unfold sameRunTxResult.
  destruct dry; simpl perform;
    [unfold DualModeAdapter.dryRun | unfold DualModeAdapter.runTxInBlock];
    (unfold bind at 1; rewrite on_ethereumJS, H1; simpl;
     unfold bind at 1; rewrite on_rethnet;
     unfold rethnetWorld, afterEthereumJS; simpl; simpl in H2;
     rewrite H2; simpl;
     unfold tryCatch, bind at 1;
     rewrite !assertEqualRunTxResults_divergence;
     destruct (runTxDivergence r1 r2) as [d|];
     [rewrite printTracesAndRethrow_run; simpl;
      split; [discriminate | intros [[=] _]]
     |simpl; split; [intros [= <-]; auto | intros [_ ->]; reflexivity]]).
Qed.

End DualOutcomes.

Section DualFailures.

Context {RT : Runtime}.
Variables E R : Type.
Variable this : DualModeAdapter.t E R.
Implicit Types (w : World (DualState E R)).

Local Abbreviation reference := (DualModeAdapter._ethereumJSAdapter this).
Local Abbreviation candidate := (DualModeAdapter._rethnetAdapter this).
Local Abbreviation dual := (DualModeAdapter.asVMAdapter this).

(** X9.  On every operation except the six writes that go to the candidate
    first, a reference backend that throws ends the operation at once: the
    adapter throws the same error, the candidate is not called and keeps its
    state, and nothing is compared or printed by the adapter. *)
Theorem reference_failure_skips_candidate
    {A} (c : Call A) w e (w1 : World E) :
  candidateFirst c = false ->
  perform reference c (ethereumJSWorld w) = (Thrown e, w1) ->
  perform dual c w = (Thrown e, afterEthereumJS c w w1).
Proof.
  intros Hc H.
  destruct c; try discriminate Hc; simpl perform;
    first [ apply reference_throws_first; exact H
          | etransitivity; [apply on_ethereumJS|]; now rewrite H ].
Qed.

(** X10.  On an operation that goes to the reference and then to the
    candidate, a candidate that throws after the reference has answered makes
    the adapter throw the same error; the reference keeps the state its call
    left (nothing is rolled back) and the adapter prints nothing, no trace
    either. *)
Theorem candidate_failure_keeps_reference_state
    {A} (c : Call A) w v1 (w1 : World E) e (w2 : World R) :
  referenceThenCandidate c = true ->
  perform reference c (ethereumJSWorld w) = (Returned v1, w1) ->
  perform candidate c (mkWorld (rethnetState (state w)) (console w1))
  = (Thrown e, w2) ->
  perform dual c w = (Thrown e, afterBoth c w w1 w2).
Proof.
  intros Hc H1 H2.
  destruct c; try discriminate Hc; simpl perform.
  - destruct v1 as [r1 t1]. unfold DualModeAdapter.dryRun.
    unfold bind at 1. rewrite on_ethereumJS, H1. simpl.
    unfold bind at 1. rewrite on_rethnet.
    unfold rethnetWorld, afterEthereumJS. simpl. simpl in H2.
    rewrite H2. simpl.
    unfold afterRethnet, afterBoth. simpl. now rewrite <- !app_assoc.
  - now apply candidate_throws_second with (v1 := v1).
  - now apply candidate_throws_second with (v1 := v1).
  - now apply candidate_throws_second with (v1 := v1).
  - now apply candidate_throws_second with (v1 := v1).
  - destruct v1. unfold DualModeAdapter.restoreContext.
    unfold bind. rewrite on_ethereumJS, H1. simpl.
    rewrite on_rethnet. unfold rethnetWorld, afterEthereumJS. simpl.
    simpl in H2. rewrite H2. simpl.
    unfold afterRethnet, afterBoth. simpl. now rewrite <- !app_assoc.
  - destruct v1 as [r1 t1]. unfold DualModeAdapter.runTxInBlock.
    unfold bind at 1. rewrite on_ethereumJS, H1. simpl.
    unfold bind at 1. rewrite on_rethnet.
    unfold rethnetWorld, afterEthereumJS. simpl. simpl in H2.
    rewrite H2. simpl.
    unfold afterRethnet, afterBoth. simpl. now rewrite <- !app_assoc.
Qed.

(** X11.  A write other than [putContractCode] returns when both backends
    perform it: the candidate runs first on the console as the caller left
    it, the reference second on the console as the candidate left it, and
    each backend ends in the state its own call produced. *)
Theorem write_returns_when_both_return
    (op : WriteOp) w (w1 : World R) (w2 : World E) :
  isPutContractCode op = false ->
  perform candidate (writeCall op) (rethnetWorld w) = (Returned tt, w1) ->
  perform reference (writeCall op)
    (mkWorld (ethereumJSState (state w)) (console w1)) = (Returned tt, w2) ->
  perform dual (writeCall op) w
  = (Returned tt,
     mkWorld
       (mkDualState (state w2) (state w1)
          (invocations (state w)
           ++ [mkInvocation Rethnet (writeCall op);
               mkInvocation EthereumJS (writeCall op)]))
       (console w2)).
Proof.
  intros Hop H1 H2.
  assert (Hrun : bind (DualModeAdapter.rethnet this (writeCall op))
                   (fun _ => DualModeAdapter.ethereumJS this (writeCall op)) w
                 = (Returned tt,
                    mkWorld
                      (mkDualState (state w2) (state w1)
                         (invocations (state w)
                          ++ [mkInvocation Rethnet (writeCall op);
                              mkInvocation EthereumJS (writeCall op)]))
                      (console w2))).
  { rewrite replicated_run, H1. unfold ethereumJSWorld, afterRethnet.
    simpl. rewrite H2. unfold afterEthereumJS. simpl.
    now rewrite <- app_assoc. }
  destruct op; try discriminate Hop; exact Hrun.
Qed.

(** X12.  When the candidate throws on such a write, the adapter throws the
    same error and the reference backend is not called: its state is the one
    before the operation. *)
Theorem write_candidate_failure_skips_reference
    (op : WriteOp) w e (w1 : World R) :
  isPutContractCode op = false ->
  perform candidate (writeCall op) (rethnetWorld w) = (Thrown e, w1) ->
  perform dual (writeCall op) w
  = (Thrown e, afterRethnet (writeCall op) w w1).
Proof.
  intros Hop H1.
  assert (Hrun : bind (DualModeAdapter.rethnet this (writeCall op))
                   (fun _ => DualModeAdapter.ethereumJS this (writeCall op)) w
                 = (Thrown e, afterRethnet (writeCall op) w w1)).
  { now rewrite replicated_run, H1. }
  destruct op; try discriminate Hop; exact Hrun.
Qed.

(** X13.  When the candidate has performed such a write and the reference
    then throws, the adapter throws the reference's error and the candidate
    keeps the state the write left it in: there is no rollback, the two
    backends are left apart. *)
Theorem write_reference_failure_is_not_rolled_back
    (op : WriteOp) w (w1 : World R) e (w2 : World E) :
  isPutContractCode op = false ->
  perform candidate (writeCall op) (rethnetWorld w) = (Returned tt, w1) ->
  perform reference (writeCall op)
    (mkWorld (ethereumJSState (state w)) (console w1)) = (Thrown e, w2) ->
  perform dual (writeCall op) w
  = (Thrown e,
     mkWorld
       (mkDualState (state w2) (state w1)
          (invocations (state w)
           ++ [mkInvocation Rethnet (writeCall op);
               mkInvocation EthereumJS (writeCall op)]))
       (console w2)).
Proof.
  intros Hop H1 H2.
  assert (Hrun : bind (DualModeAdapter.rethnet this (writeCall op))
                   (fun _ => DualModeAdapter.ethereumJS this (writeCall op)) w
                 = (Thrown e,
                    mkWorld
                      (mkDualState (state w2) (state w1)
                         (invocations (state w)
                          ++ [mkInvocation Rethnet (writeCall op);
                              mkInvocation EthereumJS (writeCall op)]))
                      (console w2))).
  { rewrite replicated_run, H1. unfold ethereumJSWorld, afterRethnet.
    simpl. rewrite H2. unfold afterEthereumJS. simpl.
    now rewrite <- app_assoc. }
  destruct op; try discriminate Hop; exact Hrun.
Qed.

End DualFailures.

(* ===================================================================== *)
(** ** Runs of the [RethnetAdapter]                                       *)
(* ===================================================================== *)

Section RethnetRuns.

Context {RT : Runtime}.
Variable SM : Type.
Context {EVM : RethnetEvm SM}.
Variable selectHardfork : bigint -> string.
Implicit Types (w : World SM).

(** [_getBlockEnvDifficulty] on the header of a block. *)
Lemma getBlockEnvDifficulty_of_header (block : Block) w :
  RethnetAdapter._getBlockEnvDifficulty selectHardfork
    (number (header block)) (Some (difficulty (header block)))
    (Some (bufferToBigInt (mixHash (header block)))) w
  = (Returned (Some (blockEnvRandomness selectHardfork (header block))),
     warned selectHardfork block w).
Proof.
  unfold RethnetAdapter._getBlockEnvDifficulty, blockEnvRandomness, warned,
         clampWarning, isPostMerge, RethnetAdapter.MAX_DIFFICULTY.
  destruct (hardforkGte _ _); simpl.
  - unfold ret. now rewrite world_eta.
  - change (2 ^ 32 - 1) with 4294967295.
    rewrite Z.gtb_ltb.
    destruct (4294967295 <? difficulty (header block)) eqn:Hlt.
    + apply Z.ltb_lt in Hlt. rewrite Z.min_r by lia. reflexivity.
    + apply Z.ltb_ge in Hlt. rewrite Z.min_l by lia.
      unfold ret. now rewrite world_eta.
Qed.

(** X14.  Once the engine has answered a [dryRun], the adapter converts the
    answer: on success it returns the converted result with the engine's
    trace and prints nothing; if the conversion throws, it prints "Rethnet
    trace" and the trace, then throws the same error. *)
Theorem dryRun_after_engine_answer
    (tx : TypedTransaction) (block : Block) (f : option bool) w
    (rethnetTx : RethnetTransaction) (w1 : World SM)
    (answer : ExecutionResult) (w2 : World SM) :
  ethereumjsTransactionToRethnet tx w = (Returned rethnetTx, w1) ->
  rethnet_guaranteedDryRun rethnetTx (dryRunConfig selectHardfork block f)
    (warned selectHardfork block w1) = (Returned answer, w2) ->
  RethnetAdapter.dryRun selectHardfork tx block f w
  = match rethnetResultToRunTxResult answer w2 with
    | (Returned result, w3) => (Returned (result, trace answer), w3)
    | (Thrown e, w3) =>
        (Thrown e,
         mkWorld (state w3)
           (console w3 ++ [ConsoleLog "Rethnet trace";
                           ConsoleLog (inspect (trace answer))]))
    end.
Proof.
  intros Htx Hrun. unfold RethnetAdapter.dryRun.
  bind_step Htx. bind_step (getBlockEnvDifficulty_of_header block w1).
  bind_step Hrun.
  unfold tryCatch, bind at 1.
  destruct (rethnetResultToRunTxResult answer w2) as [[result|e] w3];
    [reflexivity|].
  eff_unfold. now rewrite <- app_assoc.
Qed.

(** X15.  Once the engine has answered a [runTxInBlock], the adapter
    converts the answer and returns the converted result with the engine's
    trace; if the conversion throws, the error leaves as it is and, unlike in
    [dryRun], nothing is printed. *)
Theorem runTxInBlock_after_engine_answer
    (tx : TypedTransaction) (block : Block) w
    (rethnetTx : RethnetTransaction) (w1 : World SM)
    (answer : ExecutionResult) (w2 : World SM) :
  ethereumjsTransactionToRethnet tx w = (Returned rethnetTx, w1) ->
  rethnet_run rethnetTx
    (ethereumjsHeaderDataToRethnet (header block)
       (Some (blockEnvRandomness selectHardfork (header block))))
    (warned selectHardfork block w1) = (Returned answer, w2) ->
  RethnetAdapter.runTxInBlock selectHardfork tx block w
  = match rethnetResultToRunTxResult answer w2 with
    | (Returned result, w3) => (Returned (result, trace answer), w3)
    | (Thrown e, w3) => (Thrown e, w3)
    end.
Proof.
  intros Htx Hrun. unfold RethnetAdapter.runTxInBlock.
  bind_step Htx. bind_step (getBlockEnvDifficulty_of_header block w1).
  bind_step Hrun.
  unfold bind.
  destruct (rethnetResultToRunTxResult answer w2) as [[result|e] w3];
    reflexivity.
Qed.

(** X16.  If the transaction cannot be converted, [dryRun] and
    [runTxInBlock] throw the conversion's error at once: the difficulty of
    the block is not looked at, so no warning is printed, and the engine is
    not run. *)
Theorem transaction_conversion_failure_stops_the_run
    (tx : TypedTransaction) (block : Block) (f : option bool) w e
    (w1 : World SM) :
  ethereumjsTransactionToRethnet tx w = (Thrown e, w1) ->
  RethnetAdapter.dryRun selectHardfork tx block f w = (Thrown e, w1)
  /\ RethnetAdapter.runTxInBlock selectHardfork tx block w = (Thrown e, w1).
Proof.
  intros Htx.
  unfold RethnetAdapter.dryRun, RethnetAdapter.runTxInBlock.
  now rewrite !(bind_thrown _ _ _ Htx).
Qed.

(** X17.  If the engine itself throws, [dryRun] and [runTxInBlock] throw the
    same error and print no trace; a warning about a capped difficulty,
    printed before the engine ran, stays on the console. *)
Theorem engine_failure_leaves_without_trace
    (tx : TypedTransaction) (block : Block) (f : option bool) w
    (rethnetTx : RethnetTransaction) (w1 : World SM) :
  ethereumjsTransactionToRethnet tx w = (Returned rethnetTx, w1) ->
  (forall e w2,
     rethnet_guaranteedDryRun rethnetTx (dryRunConfig selectHardfork block f)
       (warned selectHardfork block w1) = (Thrown e, w2) ->
     RethnetAdapter.dryRun selectHardfork tx block f w = (Thrown e, w2))
  /\ (forall e w2,
        rethnet_run rethnetTx
          (ethereumjsHeaderDataToRethnet (header block)
             (Some (blockEnvRandomness selectHardfork (header block))))
          (warned selectHardfork block w1) = (Thrown e, w2) ->
        RethnetAdapter.runTxInBlock selectHardfork tx block w
        = (Thrown e, w2)).
Proof.
  intros Htx. split; intros e w2 Hrun.
  - unfold RethnetAdapter.dryRun.
    bind_step Htx. bind_step (getBlockEnvDifficulty_of_header block w1).
    apply (bind_thrown _ _ _ Hrun).
  - unfold RethnetAdapter.runTxInBlock.
    bind_step Htx. bind_step (getBlockEnvDifficulty_of_header block w1).
    apply (bind_thrown _ _ _ Hrun).
Qed.

End RethnetRuns.

Section DualOverRethnetRuns.

Context {RT : Runtime}.
Variables E SM : Type.
Context {EVM : RethnetEvm SM}.
Variable reference : VMAdapter E.
Variable selectHardfork : bigint -> string.

Local Abbreviation candidate := (RethnetAdapter.asVMAdapter selectHardfork).
Local Abbreviation this := (DualModeAdapter.mk reference candidate).

Implicit Types (w : World (DualState E SM)).

(** X18.  If [BlockBuilder.new] throws in the candidate, [addBlockRewards]
    of the adapter throws the same error: the candidate's block is never
    finalized and the reference backend, which would run second, receives no
    rewards. *)
Theorem addBlockRewards_builder_failure
    (rewards : list (Address * bigint)) w e (w1 : World SM) :
  BlockBuilder_new RethnetAdapter.dummyHeader (rethnetWorld w)
  = (Thrown e, w1) ->
  DualModeAdapter.addBlockRewards this rewards w
  = (Thrown e, afterRethnet (AddBlockRewards rewards) w w1)
  /\ ethereumJSState
       (state (snd (DualModeAdapter.addBlockRewards this rewards w)))
     = ethereumJSState (state w).
Proof.
  intros Hnew.
  assert (Hrun : DualModeAdapter.addBlockRewards this rewards w
                 = (Thrown e, afterRethnet (AddBlockRewards rewards) w w1)).
  { unfold DualModeAdapter.addBlockRewards. rewrite replicated_run.
    change (perform (DualModeAdapter._rethnetAdapter this)
              (AddBlockRewards rewards) (rethnetWorld w))
      with (RethnetAdapter.addBlockRewards rewards (rethnetWorld w)).
    unfold RethnetAdapter.addBlockRewards.
    now rewrite (bind_thrown _ _ _ Hnew). }
  split; [exact Hrun | now rewrite Hrun].
Qed.

(** X19.  [sealBlock] of the candidate does nothing, so [sealBlock] of the
    adapter completes as the reference backend's [sealBlock] does, run on
    the console as the caller left it, and the candidate's state is
    untouched. *)
Theorem sealBlock_is_the_reference_sealBlock w :
  let sealed := vm_sealBlock reference (ethereumJSWorld w) in
  DualModeAdapter.sealBlock this w
  = (fst sealed,
     mkWorld
       (mkDualState (state (snd sealed)) (rethnetState (state w))
          (invocations (state w)
           ++ [mkInvocation Rethnet SealBlock;
               mkInvocation EthereumJS SealBlock]))
       (console (snd sealed))).
Proof.
  cbv zeta. unfold DualModeAdapter.sealBlock. rewrite replicated_run.
  simpl. unfold ret, afterEthereumJS, afterRethnet, ethereumJSWorld,
    rethnetWorld. simpl. now rewrite <- app_assoc.
Qed.

End DualOverRethnetRuns.

(* ===================================================================== *)
(** ** Sequences of writes                                                *)
(* ===================================================================== *)

Lemma asWrite_writeCall {RT : Runtime} (op : WriteOp) :
  asWrite (writeCall op) = Some op.
Proof. now destruct op. Qed.

Lemma writesOn_app {RT : Runtime} (b : Backend) (l1 l2 : list Invocation) :
  writesOn b (l1 ++ l2) = (writesOn b l1 ++ writesOn b l2)%list.
Proof.
  induction l1 as [|i l1 IH]; simpl; [reflexivity|].
  destruct (if Backend_eqb (inv_backend i) b then asWrite (inv_call i)
            else None); simpl; now rewrite IH.
Qed.

Section WriteSequences.

Context {RT : Runtime}.
Variables E R : Type.
Variable this : DualModeAdapter.t E R.
Implicit Types (w : World (DualState E R)).

Local Abbreviation dual := (DualModeAdapter.asVMAdapter this).

(** The calls that one returning write adds to the record. *)
Lemma write_step_invocations (op : WriteOp) w :
  fst (perform dual (writeCall op) w) = Returned tt ->
  invocations (state (snd (perform dual (writeCall op) w)))
  = (invocations (state w)
     ++ if isPutContractCode op
        then [mkInvocation EthereumJS (writeCall op)]
        else [mkInvocation Rethnet (writeCall op);
              mkInvocation EthereumJS (writeCall op)])%list.
Proof.
  intros Hret.
  destruct (isPutContractCode op) eqn:Hop.
  - destruct op; try discriminate Hop. simpl perform.
    now rewrite putContractCode_reference_only.
  - destruct (write_replicated this op w Hop Hret) as (w1 & w2 & _ & _ & ->).
    reflexivity.
Qed.

(** X20.  After any sequence of writes that all return, the reference
    backend has received every write of the sequence, in order, and the
    candidate backend has received the same writes in the same order except
    the [putContractCode] ones, of which it has received none. *)
Theorem candidate_misses_exactly_the_code_writes (ops : list WriteOp) w :
  fst (performWrites dual ops w) = Returned tt ->
  exists made,
    invocations (state (snd (performWrites dual ops w)))
    = (invocations (state w) ++ made)%list
    /\ writesOn EthereumJS made = ops
    /\ writesOn Rethnet made
       = filter (fun op => negb (isPutContractCode op)) ops.
Proof.
  revert w. induction ops as [|op rest IH]; intros w; simpl.
  - intros _. exists []. now rewrite app_nil_r.
  - unfold bind.
    destruct (perform dual (writeCall op) w) as [[[]|e] w'] eqn:Hstep;
      [|discriminate].
    intros Hrest. destruct (IH w' Hrest) as (made & Hmade & Href & Hcand).
    pose proof (write_step_invocations op w) as Hinv.
    rewrite Hstep in Hinv. specialize (Hinv eq_refl). simpl in Hinv.
    rewrite Hmade, Hinv, <- app_assoc.
    eexists. split; [reflexivity|].
    rewrite !writesOn_app, Href, Hcand.
    destruct (isPutContractCode op) eqn:Hop; simpl;
      rewrite asWrite_writeCall; split; reflexivity.
Qed.

End WriteSequences.

(* ===================================================================== *)
(** ** What a divergence line shows                                       *)
(* ===================================================================== *)

Lemma shown_address_inj (x y : option Address) :
  showOptional (option_map Address_toString x)
  = showOptional (option_map Address_toString y) -> x = y.
Proof.
  destruct x as [a|], y as [b|]; simpl; try reflexivity.
  - intros H. f_equal. now apply Address_toString_inj.
  - unfold Address_toString. simpl. discriminate.
  - unfold Address_toString. simpl. discriminate.
Qed.

(** X21.  When the comparison of two transaction results throws, the line
    it traces shows two different texts if the field is totalGasSpent,
    gasRefund, createdAddress or returnValue.  For the two exceptionError
    fields the texts can be the same: an error whose kind is the string
    "undefined" against no error at all is traced as
    "undefined !== undefined". *)
Theorem divergence_line_values :
  (forall S (a b : RunTxResult) (w : World S),
     fst (assertEqualRunTxResults a b w) <> Returned tt ->
     exists d,
       assertEqualRunTxResults a b w
       = (Thrown (divergenceError d), logged w (divergenceLine d))
       /\ (dv_field d <> "exceptionError.error" ->
           dv_field d <> "exceptionError.errorType" ->
           dv_reference d <> dv_candidate d))
  /\ (let a := mkRunTxResult 1 0 None
                 (mkExecResult (Some (mkEvmError "undefined" "EvmError")) [])
      in
      let b := mkRunTxResult 1 0 None (mkExecResult None []) in
      assertEqualRunTxResults a b (mkWorld tt [])
      = (Thrown (Error "Different exceptionError.error"),
         mkWorld tt
           [ConsoleTrace
              "Different exceptionError.error: undefined !== undefined"])).
Proof.
  split; [|reflexivity].
  intros S a b w Hthrown.
  rewrite assertEqualRunTxResults_divergence in *.
  destruct (runTxDivergence a b) as [d|] eqn:Hd; [|now elim Hthrown].
  exists d. split; [reflexivity|].
  revert Hd. unfold runTxDivergence.
  destruct (Z.eqb_spec (totalGasSpent a) (totalGasSpent b)) as [_|Hg]; simpl.
  2:{ intros [= <-] _ _ H. simpl in H. now apply Hg, bigint_toString_inj. }
  destruct (Z.eqb_spec (gasRefund a) (gasRefund b)) as [_|Hr]; simpl.
  2:{ intros [= <-] _ _ H. simpl in H. now apply Hr, bigint_toString_inj. }
  destruct (optAddress_eqb_spec (createdAddress a) (createdAddress b))
    as [_|Hc]; simpl.
  2:{ intros [= <-] _ _ H. simpl in H. now apply Hc, shown_address_inj. }
  destruct (optString_eqb _ _); simpl.
  2:{ intros [= <-] He _. now elim He. }
  destruct (optString_eqb _ _); simpl.
  2:{ intros [= <-] _ Ht. now elim Ht. }
  destruct (createdAddress a); [discriminate|].
  destruct (Buffer_equals_spec (returnValue (execResult a))
              (returnValue (execResult b))) as [_|Hv]; [discriminate|].
  intros [= <-] _ _ H. simpl in H. now apply Hv, Buffer_toString_hex_inj.
Qed.

(* ===================================================================== *)
(** ** Reports of a divergence                                            *)
(* ===================================================================== *)

Lemma runTxDivergence_None_iff (a b : RunTxResult) :
  runTxDivergence a b = None
  <-> agreeBeforeReturnValue a b
      /\ (createdAddress a = None
          -> returnValue (execResult a) = returnValue (execResult b)).
Proof.
  rewrite <- (assertEqualRunTxResults_returned_iff a b (mkWorld tt [])),
          assertEqualRunTxResults_divergence.
  destruct (runTxDivergence a b); simpl; split; congruence.
Qed.

Lemma accountDivergence_None_iff {RT : Runtime} (x y : Account) :
  accountDivergence x y = None <-> agreeAccounts x y.
Proof.
  split.
  - intros H. apply (assertEqualAccounts_returned x y (mkWorld tt [])).
    now rewrite assertEqualAccounts_divergence, H.
  - intros H.
    pose proof (assertEqualAccounts_agree (mkWorld tt []) H) as Hrun.
    rewrite assertEqualAccounts_divergence in Hrun.
    destruct (accountDivergence x y); [discriminate | reflexivity].
Qed.

Lemma bufferDivergence_None_iff (name : string) (show : Buffer -> string)
    (x y : Buffer) :
  bufferDivergence name show x y = None <-> x = y.
Proof.
  unfold bufferDivergence.
  destruct (Buffer_equals_spec x y); split; congruence.
Qed.

(** The adapter finds no divergence exactly between answers that agree on
    everything it compares. *)
Lemma divergenceOf_None_iff {RT : Runtime} {A} (c : Call A) (v1 v2 : A) :
  compared c = true ->
  divergenceOf c v1 v2 = None <-> sameAnswer c v1 v2.
Proof.
  destruct c; intros H; try discriminate H; simpl;
    first [ apply runTxDivergence_None_iff
          | apply accountDivergence_None_iff
          | apply bufferDivergence_None_iff ].
Qed.

Section DivergenceReports.

Context {RT : Runtime}.
Variables E R : Type.
Variable this : DualModeAdapter.t E R.
Implicit Types (w : World (DualState E R)).

Local Abbreviation reference := (DualModeAdapter._ethereumJSAdapter this).
Local Abbreviation candidate := (DualModeAdapter._rethnetAdapter this).
Local Abbreviation dual := (DualModeAdapter.asVMAdapter this).

(** The run of a compared operation on answers with a divergence. *)
Lemma diverging_run {A} (c : Call A) w v1 (w1 : World E) v2 (w2 : World R) d :
  perform reference c (ethereumJSWorld w) = (Returned v1, w1) ->
  perform candidate c (mkWorld (rethnetState (state w)) (console w1))
  = (Returned v2, w2) ->
  divergenceOf c v1 v2 = Some d ->
  perform dual c w
  = (Thrown (fst (afterDivergence c d v1 v2)),
     mkWorld
       (mkDualState (state w1) (state w2)
          (invocations (state w)
           ++ [mkInvocation EthereumJS c; mkInvocation Rethnet c]))
       (console w2
        ++ divergenceLine d :: snd (afterDivergence c d v1 v2))).
Proof.
  intros H1 H2 Hd.
  destruct c; simpl in Hd; try discriminate Hd; simpl perform;
    simpl afterDivergence.
  - (* dryRun *)
    destruct v1 as [r1 t1], v2 as [r2 t2].
    unfold DualModeAdapter.dryRun.
    unfold bind at 1. rewrite on_ethereumJS, H1. simpl.
    unfold bind at 1. rewrite on_rethnet.
    unfold rethnetWorld, afterEthereumJS. simpl. simpl in H2.
    rewrite H2. simpl.
    unfold tryCatch, bind at 1. simpl in Hd.
    rewrite assertEqualRunTxResults_divergence, Hd.
    rewrite printTracesAndRethrow_run.
    unfold afterRethnet, logged. simpl.
    now rewrite <- !app_assoc.
  - (* getStateRoot *)
    unfold DualModeAdapter.getStateRoot.
    rewrite (ask_both _ _ _ w H1 H2).
    unfold bufferDivergence in Hd. unfold bind, when.
    destruct (Buffer_equals v1 v2); [discriminate Hd|].
    injection Hd as <-. reflexivity.
  - (* getAccount *)
    unfold DualModeAdapter.getAccount.
    rewrite (ask_both _ _ _ w H1 H2).
    unfold bind. rewrite assertEqualAccounts_divergence, Hd. reflexivity.
  - (* getContractStorage *)
    unfold DualModeAdapter.getContractStorage.
    rewrite (ask_both _ _ _ w H1 H2).
    unfold bufferDivergence in Hd. unfold bind, when.
    destruct (Buffer_equals v1 v2); [discriminate Hd|].
    injection Hd as <-. reflexivity.
  - (* getContractCode *)
    unfold DualModeAdapter.getContractCode.
    rewrite (ask_both _ _ _ w H1 H2).
    unfold bufferDivergence in Hd. unfold bind, when.
    destruct (Buffer_equals v1 v2); [discriminate Hd|].
    injection Hd as <-. reflexivity.
  - (* runTxInBlock *)
    destruct v1 as [r1 t1], v2 as [r2 t2].
    unfold DualModeAdapter.runTxInBlock.
    unfold bind at 1. rewrite on_ethereumJS, H1. simpl.
    unfold bind at 1. rewrite on_rethnet.
    unfold rethnetWorld, afterEthereumJS. simpl. simpl in H2.
    rewrite H2. simpl.
    unfold tryCatch, bind at 1. simpl in Hd.
    rewrite assertEqualRunTxResults_divergence, Hd.
    rewrite printTracesAndRethrow_run.
    unfold afterRethnet, logged. simpl.
    now rewrite <- !app_assoc.
Qed.

(** C4, as the code has it.  When both backends answer a compared
    operation and the answers differ on something the adapter compares, the
    adapter traces one line that names the first differing field with both
    values.  The four reads ([getStateRoot], [getAccount],
    [getContractStorage], [getContractCode]) then throw
    "Different <field>" and print nothing more.  [dryRun] and
    [runTxInBlock] then print "EthereumJS trace", the reference trace, an
    empty line, "Rethnet trace" and the candidate trace, and throw
    "Different <field>"; if [JSON.stringify] throws on a trace, which it does
    on a bigint in the reference trace, the printing stops there and that
    error is the one thrown. *)
Theorem divergence_reported
    {A} (c : Call A) w v1 (w1 : World E) v2 (w2 : World R) :
  compared c = true ->
  perform reference c (ethereumJSWorld w) = (Returned v1, w1) ->
  perform candidate c (mkWorld (rethnetState (state w)) (console w1))
  = (Returned v2, w2) ->
  ~ sameAnswer c v1 v2 ->
  exists d,
    divergenceOf c v1 v2 = Some d
    /\ perform dual c w
       = (Thrown (fst (afterDivergence c d v1 v2)),
          mkWorld
            (mkDualState (state w1) (state w2)
               (invocations (state w)
                ++ [mkInvocation EthereumJS c; mkInvocation Rethnet c]))
            (console w2
             ++ divergenceLine d :: snd (afterDivergence c d v1 v2))).
Proof.
  intros Hc H1 H2 Hdiffer.
  destruct (divergenceOf c v1 v2) as [d|] eqn:Hd.
  - exists d. split; [reflexivity|]. now apply diverging_run.
  - elim Hdiffer. now apply divergenceOf_None_iff.
Qed.

End DivergenceReports.

(* ===================================================================== *)
(** ** The properties on the example session                              *)
(* ===================================================================== *)

#[local] Existing Instance Example.runtime.
#[local] Existing Instance Example.evm.

(** C4, as the specification states it, fails for the reads: when the two
    backends hold different balances, [getAccount] throws after tracing the
    one divergence line, and no execution trace is printed. *)
Lemma getAccount_divergence_prints_no_trace :
  fst (DualModeAdapter.getAccount Example.dual Example.addressAA
         Example.diverged) = Thrown (Error "Different balance")
  /\ console (snd (DualModeAdapter.getAccount Example.dual Example.addressAA
                     Example.diverged))
     = [ConsoleTrace "Different balance: 1 !== 2"].
Proof. split; reflexivity. Qed.

Lemma divergence_reported_witness :
  let w := Example.session (Example.callA, "a") (Example.callB, "b") in
  (~ sameAnswer (DryRun "tx" Example.someBlock None)
       (Example.callA, "a") (Example.callB, "b"))
  /\ DualModeAdapter.dryRun Example.dual "tx" Example.someBlock None w
     = (Thrown (Error "Different returnValue"),
        mkWorld
          (mkDualState (ethereumJSState (state w)) (rethnetState (state w))
             [mkInvocation EthereumJS (DryRun "tx" Example.someBlock None);
              mkInvocation Rethnet (DryRun "tx" Example.someBlock None)])
          [ConsoleTrace "Different returnValue: 60 !== 61";
           ConsoleLog "EthereumJS trace"; ConsoleLog "a"; ConsoleLog "";
           ConsoleLog "Rethnet trace"; ConsoleLog "b"])
  /\ DualModeAdapter.runTxInBlock (RT := BigintTrace.runtime)
       BigintTrace.dual tt Example.someBlock BigintTrace.start
     = (Thrown (Error "Do not know how to serialize a BigInt"),
        mkWorld
          (mkDualState (RT := BigintTrace.runtime) tt tt
             [mkInvocation EthereumJS
                (RunTxInBlock (RT := BigintTrace.runtime) tt
                   Example.someBlock);
              mkInvocation Rethnet
                (RunTxInBlock (RT := BigintTrace.runtime) tt
                   Example.someBlock)])
          [ConsoleTrace "Different totalGasSpent: 1 !== 2";
           ConsoleLog "EthereumJS trace"]).
Proof.
  assert (Hab : ~ sameAnswer (DryRun "tx" Example.someBlock None)
                    (Example.callA, "a") (Example.callB, "b")).
  { intros [_ H]. specialize (H eq_refl). discriminate H. }
  split; [exact Hab | split].
  - destruct (divergence_reported Example.dual
                (DryRun (RT := Example.runtime) "tx" Example.someBlock None)
                (Example.session (Example.callA, "a") (Example.callB, "b"))
                (w1 := mkWorld (Example.freshEngine (Example.callA, "a")) [])
                (w2 := mkWorld (Example.freshEngine (Example.callB, "b")) [])
                eq_refl eq_refl eq_refl Hab) as (d & Hd & Hrun).
    injection Hd as <-. exact Hrun.
  - destruct (divergence_reported (RT := BigintTrace.runtime)
                BigintTrace.dual
                (RunTxInBlock (RT := BigintTrace.runtime) tt
                   Example.someBlock)
                BigintTrace.start
                (v1 := (BigintTrace.cheap, 7)) (v2 := (BigintTrace.dear, 7))
                (w1 := mkWorld tt []) (w2 := mkWorld tt [])
                eq_refl eq_refl eq_refl) as (d & Hd & Hrun).
    + intros [(H & _) _]. discriminate H.
    + injection Hd as <-. exact Hrun.
Defined.

(** On a block before the merge whose difficulty is 2^32, the engine is
    given 2^32 - 1 and the warning is traced. *)
Example heavy_block_difficulty_capped :
  RethnetAdapter._getBlockEnvDifficulty (RT := Example.runtime)
    Example.selectHardfork 7 (Some 4294967296) (Some 258)
    (mkWorld (Example.engineWithBalance 0) [])
  = (Returned (Some 4294967295),
     mkWorld (Example.engineWithBalance 0)
       [ConsoleTrace "Difficulty is larger than U256::max: 100000000"]).
Proof. reflexivity. Qed.

Lemma block_env_randomness_witness :
  blockEnvRandomness (RT := Example.runtime) Example.selectHardfork
    (header Example.heavyBlock) = 4294967295
  /\ RethnetAdapter._getBlockEnvDifficulty (RT := Example.runtime)
       Example.selectHardfork 7 (Some 4294967296) (Some 258)
       (mkWorld (Example.engineWithBalance 0) [])
     = (Returned (Some 4294967295),
        mkWorld (Example.engineWithBalance 0)
          [ConsoleTrace "Difficulty is larger than U256::max: 100000000"]).
Proof.
  split; [reflexivity|].
  exact (proj1 (block_env_randomness (RT := Example.runtime)
                  (EVM := Example.evm) Example.selectHardfork
                  Example.heavyBlock)
           (mkWorld (Example.engineWithBalance 0) [])).
Defined.

Lemma addBlockRewards_dummy_header_witness :
  let w := mkWorld (Example.engineWithBalance 1) [] in
  let rewards := [(Example.addressAA, 5)] in
  Example.deafBuilder RethnetAdapter.dummyHeader
  = BlockBuilder_new RethnetAdapter.dummyHeader
  /\ RethnetAdapter.addBlockRewards
       (EVM := withBlockBuilder Example.evm Example.deafBuilder) rewards w
     = RethnetAdapter.addBlockRewards rewards w
  /\ fst (perform Example.backend (GetAccount Example.addressAA)
            (snd (RethnetAdapter.addBlockRewards rewards w)))
     = Returned (mkAccount 0 6 [] []).
Proof.
  split; [reflexivity | split; [|reflexivity]].
  exact (proj2 (proj2
           (addBlockRewards_builds_on_dummy_header Example.deafBuilder
              [(Example.addressAA, 5)]
              (mkWorld (Example.engineWithBalance 1) []) eq_refl))).
Defined.

(** Two accounts that differ in their storage roots only pass the
    comparison. *)
Example assertEqualAccounts_ignores_storageRoot :
  assertEqualAccounts (mkAccount 3 100 [x01] [xc5])
                      (mkAccount 3 100 [x02] [xc5]) Example.quiet
  = (Returned tt, Example.quiet).
Proof. reflexivity. Qed.

(* ===================================================================== *)
(** ** Answers, failures and runs on the example sessions                 *)
(* ===================================================================== *)

Lemma agreed_answer_witness :
  divergenceOf (GetAccount Example.addressAA)
    Example.accountRootA Example.accountRootB = None
  /\ DualModeAdapter.getAccount Example.dual Example.addressAA
       Example.rootsApart
     = (Returned Example.accountRootA,
        afterBoth (GetAccount Example.addressAA) Example.rootsApart
          (ethereumJSWorld Example.rootsApart)
          (rethnetWorld Example.rootsApart)).
Proof.
  split; [reflexivity|].
  exact (agreed_answer_is_returned Example.dual
           (GetAccount Example.addressAA) Example.rootsApart
           (w1 := ethereumJSWorld Example.rootsApart)
           (w2 := rethnetWorld Example.rootsApart)
           eq_refl eq_refl eq_refl eq_refl).
Defined.

Lemma buffer_read_witness :
  fst (DualModeAdapter.getContractCode Example.dual Example.addressAA
         Example.idle) = Returned (@nil byte)
  <-> @nil byte = [] /\ @nil byte = [].
Proof.
  exact (buffer_read_returns_common_value Example.dual
           (RContractCode Example.addressAA) Example.idle
           (w1 := ethereumJSWorld Example.idle)
           (w2 := rethnetWorld Example.idle) (@nil byte) eq_refl eq_refl).
Defined.

Lemma getAccount_reference_witness :
  fst (DualModeAdapter.getAccount Example.dual Example.addressAA
         Example.rootsApart) = Returned Example.accountRootA
  <-> agreeAccounts Example.accountRootA Example.accountRootB
      /\ Example.accountRootA = Example.accountRootA.
Proof.
  exact (getAccount_returns_reference_account Example.dual
           Example.addressAA Example.rootsApart
           (w1 := ethereumJSWorld Example.rootsApart)
           (w2 := rethnetWorld Example.rootsApart)
           Example.accountRootA eq_refl eq_refl).
Defined.

Lemma execution_returns_witness :
  let w := Example.session (Example.createA, "a") (Example.createB, "b") in
  fst (DualModeAdapter.dryRun Example.dual "tx" Example.someBlock None w)
  = Returned (Example.createB, "b")
  <-> sameRunTxResult Example.createA Example.createB
      /\ (Example.createB, "b") = (Example.createB, "b").
Proof.
  exact (execution_returns_when_results_pass Example.dual "tx"
           Example.someBlock None
           (Example.session (Example.createA, "a") (Example.createB, "b"))
           true
           (w1 := mkWorld (Example.freshEngine (Example.createA, "a")) [])
           (w2 := mkWorld (Example.freshEngine (Example.createB, "b")) [])
           (Example.createB, "b") eq_refl eq_refl).
Defined.

Lemma reference_failure_witness :
  DualModeAdapter.getAccount Example.dualBrokenReference Example.addressAA
    Example.brokenReferenceSession
  = (Thrown (Error "engine down"),
     afterEthereumJS (GetAccount Example.addressAA)
       Example.brokenReferenceSession
       (ethereumJSWorld Example.brokenReferenceSession)).
Proof.
  exact (reference_failure_skips_candidate Example.dualBrokenReference
           (GetAccount Example.addressAA) Example.brokenReferenceSession
           eq_refl eq_refl).
Defined.

Lemma candidate_failure_witness :
  DualModeAdapter.getAccount Example.dualBrokenCandidate Example.addressAA
    Example.brokenCandidateSession
  = (Thrown (Error "engine down"),
     afterBoth (GetAccount Example.addressAA) Example.brokenCandidateSession
       (ethereumJSWorld Example.brokenCandidateSession)
       (rethnetWorld Example.brokenCandidateSession)).
Proof.
  exact (candidate_failure_keeps_reference_state
           Example.dualBrokenCandidate (GetAccount Example.addressAA)
           Example.brokenCandidateSession
           (v1 := mkAccount 0 1 [] [])
           (w1 := ethereumJSWorld Example.brokenCandidateSession)
           eq_refl eq_refl eq_refl).
Defined.

Lemma write_returns_witness :
  fst (DualModeAdapter.putAccount Example.dual Example.addressAA
         Example.accountRootA Example.idle) = Returned tt
  /\ invocations
       (state (snd (DualModeAdapter.putAccount Example.dual
                      Example.addressAA Example.accountRootA Example.idle)))
     = [mkInvocation Rethnet
          (PutAccount Example.addressAA Example.accountRootA);
        mkInvocation EthereumJS
          (PutAccount Example.addressAA Example.accountRootA)].
Proof.
  pose proof (write_returns_when_both_return Example.dual
                (WPutAccount Example.addressAA Example.accountRootA)
                Example.idle
                (w1 := snd (perform Example.backend
                              (PutAccount Example.addressAA
                                 Example.accountRootA)
                              (rethnetWorld Example.idle)))
                (w2 := snd (perform Example.backend
                              (PutAccount Example.addressAA
                                 Example.accountRootA)
                              (ethereumJSWorld Example.idle)))
                eq_refl) as H.
  split; [exact (f_equal fst (H eq_refl eq_refl))
         |exact (f_equal (fun r => invocations (state (snd r)))
                   (H eq_refl eq_refl))].
Defined.

Lemma write_candidate_failure_witness :
  DualModeAdapter.revertBlock Example.dual Example.idle
  = (Thrown (Error "no checkpoint"),
     afterRethnet RevertBlock Example.idle (rethnetWorld Example.idle)).
Proof.
  exact (write_candidate_failure_skips_reference Example.dual WRevertBlock
           Example.idle eq_refl eq_refl).
Defined.

Lemma write_reference_failure_witness :
  fst (DualModeAdapter.revertBlock Example.dual
         Example.candidateCheckpointed) = Thrown (Error "no checkpoint")
  /\ Example.checkpoints
       (rethnetState (state Example.candidateCheckpointed))
     = [Example.mkTables [] [] []]
  /\ Example.checkpoints
       (rethnetState
          (state (snd (DualModeAdapter.revertBlock Example.dual
                         Example.candidateCheckpointed)))) = [].
Proof.
  pose proof (write_reference_failure_is_not_rolled_back Example.dual
                WRevertBlock Example.candidateCheckpointed
                (w1 := mkWorld
                         (Example.freshEngine
                            (Example.plainResult 21000 [], "steps")) [])
                (w2 := ethereumJSWorld Example.candidateCheckpointed)
                eq_refl eq_refl eq_refl) as H.
  split; [exact (f_equal fst H) | split; [reflexivity|]].
  exact (f_equal (fun r => Example.checkpoints (rethnetState (state (snd r))))
           H).
Defined.

Lemma dryRun_after_engine_answer_witness :
  let w := mkWorld (Example.freshEngine (Example.callA, "steps of A")) [] in
  RethnetAdapter.dryRun Example.selectHardfork "tx" Example.heavyBlock None w
  = (Returned (Example.callA, "steps of A"),
     mkWorld (state w)
       [ConsoleTrace "Difficulty is larger than U256::max: 100000000"])
  /\ RethnetAdapter.dryRun (EVM := Example.evmWith false true)
       Example.selectHardfork "tx" Example.heavyBlock None w
     = (Thrown (Error "unknown exit code"),
        mkWorld (state w)
          [ConsoleTrace "Difficulty is larger than U256::max: 100000000";
           ConsoleLog "Rethnet trace"; ConsoleLog "steps of A"]).
Proof.
  split.
  - exact (dryRun_after_engine_answer (EVM := Example.evm)
             Example.selectHardfork "tx" Example.heavyBlock None
             (mkWorld (Example.freshEngine (Example.callA, "steps of A")) [])
             eq_refl eq_refl).
  - exact (dryRun_after_engine_answer (EVM := Example.evmWith false true)
             Example.selectHardfork "tx" Example.heavyBlock None
             (mkWorld (Example.freshEngine (Example.callA, "steps of A")) [])
             eq_refl eq_refl).
Defined.

Lemma runTxInBlock_after_engine_answer_witness :
  let w := mkWorld (Example.freshEngine (Example.callA, "steps of A")) [] in
  RethnetAdapter.runTxInBlock Example.selectHardfork "tx" Example.someBlock w
  = (Returned (Example.callA, "steps of A"), w)
  /\ RethnetAdapter.runTxInBlock (EVM := Example.evmWith false true)
       Example.selectHardfork "tx" Example.someBlock w
     = (Thrown (Error "unknown exit code"), w).
Proof.
  split.
  - exact (runTxInBlock_after_engine_answer (EVM := Example.evm)
             Example.selectHardfork "tx" Example.someBlock
             (mkWorld (Example.freshEngine (Example.callA, "steps of A")) [])
             eq_refl eq_refl).
  - exact (runTxInBlock_after_engine_answer
             (EVM := Example.evmWith false true)
             Example.selectHardfork "tx" Example.someBlock
             (mkWorld (Example.freshEngine (Example.callA, "steps of A")) [])
             eq_refl eq_refl).
Defined.

Lemma transaction_conversion_failure_witness :
  RethnetAdapter.dryRun (EVM := brokenEvm) Example.selectHardfork "tx"
    Example.heavyBlock None (mkWorld tt [])
  = (Thrown (Error "engine down"), mkWorld tt [])
  /\ RethnetAdapter.runTxInBlock (EVM := brokenEvm) Example.selectHardfork
       "tx" Example.heavyBlock (mkWorld tt [])
     = (Thrown (Error "engine down"), mkWorld tt []).
Proof.
  exact (transaction_conversion_failure_stops_the_run (EVM := brokenEvm)
           Example.selectHardfork "tx" Example.heavyBlock None
           (mkWorld tt []) eq_refl).
Defined.

Lemma engine_failure_witness :
  let w := mkWorld (Example.freshEngine (Example.callA, "steps of A")) [] in
  RethnetAdapter.dryRun (EVM := Example.evmWith true false)
    Example.selectHardfork "tx" Example.heavyBlock None w
  = (Thrown (Error "out of memory"),
     mkWorld (state w)
       [ConsoleTrace "Difficulty is larger than U256::max: 100000000"]).
Proof.
  exact (proj1 (engine_failure_leaves_without_trace
                  (EVM := Example.evmWith true false)
                  Example.selectHardfork "tx" Example.heavyBlock None
                  (mkWorld
                     (Example.freshEngine (Example.callA, "steps of A")) [])
                  eq_refl)
           _ _ eq_refl).
Defined.

Lemma addBlockRewards_builder_failure_witness :
  let failing := withBlockBuilder Example.evm Example.noBuilder in
  let this :=
    DualModeAdapter.mk Example.backend
      (RethnetAdapter.asVMAdapter (EVM := failing) Example.selectHardfork) in
  fst (DualModeAdapter.addBlockRewards this [(Example.addressAA, 5)]
         Example.diverged) = Thrown (Error "no builder")
  /\ ethereumJSState
       (state (snd (DualModeAdapter.addBlockRewards this
                      [(Example.addressAA, 5)] Example.diverged)))
     = Example.engineWithBalance 1.
Proof.
  pose proof (addBlockRewards_builder_failure
                (EVM := withBlockBuilder Example.evm Example.noBuilder)
                Example.backend Example.selectHardfork
                [(Example.addressAA, 5)] Example.diverged
                (w1 := rethnetWorld Example.diverged) eq_refl) as [H1 H2].
  split; [exact (f_equal fst H1) | exact H2].
Defined.

Lemma candidate_misses_code_writes_witness :
  let ops := [WPutAccount Example.addressAA Example.accountRootA;
              WPutContractCode Example.addressAA [x60; x00];
              WStartBlock] in
  fst (performWrites (DualModeAdapter.asVMAdapter Example.dual) ops
         Example.idle) = Returned tt
  /\ exists made,
       invocations
         (state (snd (performWrites (DualModeAdapter.asVMAdapter Example.dual)
                        ops Example.idle)))
       = made
       /\ writesOn EthereumJS made = ops
       /\ writesOn Rethnet made
          = [WPutAccount Example.addressAA Example.accountRootA;
             WStartBlock].
Proof.
  split; [reflexivity|].
  exact (candidate_misses_exactly_the_code_writes Example.dual
           [WPutAccount Example.addressAA Example.accountRootA;
            WPutContractCode Example.addressAA [x60; x00];
            WStartBlock] Example.idle eq_refl).
Defined.
